(** * The persistent volume claim resource of the Kubernetes provider

    A shallow embedding of
    [kubernetes/resource_kubernetes_persistent_volume_claim.go]: the
    resource description (importer, timeouts) and its five lifecycle
    operations Create, Read, Update, Delete and Exists.

    The Go functions mutate the resource data [d] through a pointer and
    talk to the cluster through the client [conn]; here both live in an
    explicit state that every operation threads, together with a log of
    the calls that left the file.  A Go result [(v, err)] is a sum
    [v + error]; a lone [error] is an [option error] ([None] is [nil]). *)

From Stdlib Require Import ZArith String Ascii List Bool Lia.
From stdpp Require Import base option list strings gmap.

Import ListNotations.
Local Open Scope string_scope.
Local Open Scope Z_scope.

(** ** Errors *)

(** The Go [error] values that occur in the file.  [StatusError] is
    [*errors.StatusError] of the API machinery with its [ErrStatus.Code];
    [UnexpectedStateError] and [TimeoutError] are the two failures of the
    convergence waiter; [Errorf] is the result of [fmt.Errorf]; anything
    else (transport, serialisation) is an [OtherError]. *)
Inductive error : Type :=
| StatusError (code : Z) (message : string)
| UnexpectedStateError (state : string)
| TimeoutError (lastState : string) (timeout : Z)
| Errorf (message : string)
| OtherError (message : string).

(** [err.Error()], the text that [%s] prints. *)
Definition Error (e : error) : string :=
  match e with
  | StatusError _ m => m
  | UnexpectedStateError s => "unexpected state '" ++ s ++ "'"
  | TimeoutError s _ => "timeout while waiting for state (last state: '" ++ s ++ "')"
  | Errorf m => m
  | OtherError m => m
  end.

(** The type assertion of [err] to a status error, followed by
    [ErrStatus.Code]. *)
Definition statusCode (e : error) : option Z :=
  match e with
  | StatusError code _ => Some code
  | _ => None
  end.

(** ** Cluster objects *)

Record ObjectMeta : Type := mkObjectMeta {
  Name : string;
  Namespace : string;
  Labels : list (string * string);
  Annotations : list (string * string)
}.

Record PersistentVolumeClaimSpec : Type := mkSpec {
  AccessModes : list string;
  StorageRequest : string;
  StorageClassName : string;
  VolumeName : string
}.

Record PersistentVolumeClaimStatus : Type := mkStatus {
  Phase : string
}.

Record PersistentVolumeClaim : Type := mkClaim {
  claimObjectMeta : ObjectMeta;
  claimSpec : PersistentVolumeClaimSpec;
  claimStatus : PersistentVolumeClaimStatus
}.

(** The zero values of the Go structs. *)
Definition emptyObjectMeta : ObjectMeta := mkObjectMeta "" "" [] [].
Definition emptySpec : PersistentVolumeClaimSpec := mkSpec [] "" "" "".
Definition emptyClaim : PersistentVolumeClaim :=
  mkClaim emptyObjectMeta emptySpec (mkStatus "").

Record Event : Type := mkEvent {
  involvedName : string;
  involvedKind : string;
  eventType : string;
  eventReason : string;
  eventMessage : string;
  lastTimestamp : Z
}.

(** ** Dynamic values of the schema layer *)

(** What [d.Get] returns and [d.Set] takes: an [interface{}] holding a
    bool, a string, a list or a string-keyed map. *)
#[warnings="-register-all"]
Inductive Value : Type :=
| VBool (b : bool)
| VString (s : string)
| VList (l : list Value)
| VMap (m : list (string * Value)).

(** The type assertions [.(bool)], [.([]interface{})], [.(string)] and
    [.(map[string]interface{})]; the schema layer hands out values of the
    declared type, the other branches are the zero value. *)
Definition asBool (v : Value) : bool :=
  match v with VBool b => b | _ => false end.
Definition asList (v : Value) : list Value :=
  match v with VList l => l | _ => [] end.
Definition asString (v : Value) : string :=
  match v with VString s => s | _ => "" end.
Definition asMap (v : Value) : list (string * Value) :=
  match v with VMap m => m | _ => [] end.

Fixpoint assoc (k : string) (m : list (string * Value)) : option Value :=
  match m with
  | [] => None
  | (k', v) :: rest => if String.eqb k k' then Some v else assoc k rest
  end.

(** ** Time *)

Definition Second : Z := 1000000000.
Definition Minute : Z := 60 * Second.

(** [schema.DefaultTimeout] *)
Definition DefaultTimeout (t : Z) : option Z := Some t.

(** ** Resource data *)

Inductive ValueType : Type := TypeBool | TypeString | TypeList | TypeMap.

Definition typeOf (v : Value) : ValueType :=
  match v with
  | VBool _ => TypeBool
  | VString _ => TypeString
  | VList _ => TypeList
  | VMap _ => TypeMap
  end.

Definition zeroValue (t : ValueType) : Value :=
  match t with
  | TypeBool => VBool false
  | TypeString => VString ""
  | TypeList => VList []
  | TypeMap => VMap []
  end.

Definition ValueType_eqb (a b : ValueType) : bool :=
  match a, b with
  | TypeBool, TypeBool | TypeString, TypeString
  | TypeList, TypeList | TypeMap, TypeMap => true
  | _, _ => false
  end.

(** Modelled from the spec: [persistentVolumeClaimSpecFields] is declared
    in another file of the package.  The local persisted state layout of
    the spec has a desired spec mirror, the metadata and a wait-flag
    boolean; the types are the ones the operations assert at their
    [d.Get] sites. *)
Definition persistentVolumeClaimSpecFields (isUpdatable : bool)
  : gmap string ValueType :=
  <["metadata" := TypeList]>
  (<["spec" := TypeList]>
  (<["wait_until_bound" := TypeBool]> ∅)).

(** [*schema.ResourceData] of this resource: the identity, the attributes
    of the prior state, the current attributes, and the create timeout of
    the configuration when the user wrote one. *)
Record ResourceData : Type := mkResourceData {
  rdId : string;
  rdState : gmap string Value;
  rdAttrs : gmap string Value;
  rdTimeoutCreate : option Z
}.

(** [strings.Split(s, sep)] for a one-character separator. *)
Fixpoint splitOn (sep : ascii) (s : string) : list string :=
  match s with
  | EmptyString => [""]
  | String c rest =>
      if Ascii.eqb c sep then "" :: splitOn sep rest
      else match splitOn sep rest with
           | h :: t => String c h :: t
           | [] => [String c ""]
           end
  end.

Definition digitOf (c : ascii) : option nat :=
  let n := nat_of_ascii c in
  if (48 <=? n)%nat && (n <=? 57)%nat then Some (n - 48)%nat else None.

Fixpoint parseIndexFrom (acc : nat) (s : string) : option nat :=
  match s with
  | EmptyString => Some acc
  | String c rest =>
      match digitOf c with
      | Some k => parseIndexFrom (10 * acc + k)%nat rest
      | None => None
      end
  end.

Definition parseIndex (s : string) : option nat :=
  match s with
  | EmptyString => None
  | _ => parseIndexFrom 0%nat s
  end.

(** One step into a value: a list by its index, a map by its key. *)
Definition child (seg : string) (v : Value) : option Value :=
  match v with
  | VList l => match parseIndex seg with
               | Some i => nth_error l i
               | None => None
               end
  | VMap m => assoc seg m
  | _ => None
  end.

Fixpoint walk (segs : list string) (v : Value) : option Value :=
  match segs with
  | [] => Some v
  | seg :: rest => match child seg v with
                   | Some v' => walk rest v'
                   | None => None
                   end
  end.

(** The value at a dotted address such as [metadata.0.labels]. *)
Definition lookupKey (key : string) (attrs : gmap string Value) : option Value :=
  match splitOn "." key with
  | [] => None
  | top :: rest => match attrs !! top with
                   | Some v => walk rest v
                   | None => None
                   end
  end.

Definition Schema : gmap string ValueType := persistentVolumeClaimSpecFields false.

(** [d.Get(key)] for a top-level attribute: the current value, or the
    zero value of the declared type. *)
Definition rdGet (key : string) (d : ResourceData) : Value :=
  match rdAttrs d !! key with
  | Some v => v
  | None => match Schema !! key with
            | Some t => zeroValue t
            | None => VString ""
            end
  end.

(** [d.GetChange(key)]: the prior and the current value at an address. *)
Definition rdGetChange (key : string) (d : ResourceData) : Value * Value :=
  (default (VMap []) (lookupKey key (rdState d)),
   default (VMap []) (lookupKey key (rdAttrs d))).

(** [d.Set(key, v)]: refused for an attribute the schema does not declare
    or a value of another type. *)
Definition rdSet (key : string) (v : Value) (d : ResourceData)
  : option error * ResourceData :=
  match Schema !! key with
  | Some t =>
      if ValueType_eqb (typeOf v) t
      then (None, mkResourceData (rdId d) (rdState d) (<[key := v]> (rdAttrs d))
                                 (rdTimeoutCreate d))
      else (Some (Errorf (key ++ ": value of the wrong type")), d)
  | None => (Some (Errorf ("Invalid address to set: " ++ key)), d)
  end.

Definition rdSetId (id : string) (d : ResourceData) : ResourceData :=
  mkResourceData id (rdState d) (rdAttrs d) (rdTimeoutCreate d).

(** ** Identity codec *)

(** Modelled from the spec: [buildId] is declared in another file of the
    package.  The identity string is [namespace/name]. *)
Definition buildId (meta : ObjectMeta) : string :=
  Namespace meta ++ "/" ++ Name meta.

(** Modelled from the spec: [idParts] is declared in another file of the
    package.  Decoding fails when the string does not have the expected
    segment count (two segments around one delimiter). *)
Definition idParts (id : string) : (string * string) + error :=
  match splitOn "/" id with
  | [ns; name] => inl (ns, name)
  | _ => inr (Errorf ("Unexpected ID format (" ++ id ++ "), expected namespace/name."))
  end.

(** ** Patch documents *)

Inductive PatchOperation : Type :=
| AddOperation (path value : string)
| ReplaceOperation (path value : string)
| RemoveOperation (path : string).

Definition PatchOperations : Type := list PatchOperation.

Definition opPath (op : PatchOperation) : string :=
  match op with
  | AddOperation p _ | ReplaceOperation p _ | RemoveOperation p => p
  end.

(** Modelled from the spec: [diffStringMap] is declared in another file
    of the package.  A key-value diff as a typed list of remove, replace
    and add operations at the paths [pathPrefix/key]. *)
Definition diffStringMap (pathPrefix : string) (oldV newV : list (string * Value))
  : PatchOperations :=
  (flat_map (fun kv : string * Value =>
              match assoc (fst kv) newV with
              | Some _ => []
              | None => [RemoveOperation (pathPrefix ++ "/" ++ fst kv)]
              end) oldV
  ++
  flat_map (fun kv : string * Value =>
              let newValue := asString (snd kv) in
              match assoc (fst kv) oldV with
              | Some (VString oldValue) =>
                  if String.eqb oldValue newValue then []
                  else [ReplaceOperation (pathPrefix ++ "/" ++ fst kv) newValue]
              | _ => [AddOperation (pathPrefix ++ "/" ++ fst kv) newValue]
              end) newV)%list.

(** Modelled from the spec: [patchMetadata] is declared in another file
    of the package.  The minimal patch of the metadata sub-tree: the
    diffs of the annotations and of the labels found under [keyPrefix],
    at paths under [pathPrefix]. *)
Definition patchMetadata (keyPrefix pathPrefix : string) (d : ResourceData)
  : PatchOperations :=
  ((let '(oldV, newV) := rdGetChange (keyPrefix ++ "annotations") d in
    diffStringMap (pathPrefix ++ "annotations") (asMap oldV) (asMap newV))
   ++
   (let '(oldV, newV) := rdGetChange (keyPrefix ++ "labels") d in
    diffStringMap (pathPrefix ++ "labels") (asMap oldV) (asMap newV)))%list.

Inductive PatchType : Type :=
| JSONPatchType | MergePatchType | StrategicMergePatchType.

(** ** The cluster client and the helpers of the package *)

(** The calls that leave the file, as they are logged. *)
Inductive Call : Type :=
| CallCreate (namespace : string) (claim : PersistentVolumeClaim)
| CallGet (namespace name : string)
| CallPatch (namespace name : string) (pt : PatchType) (data : string)
| CallDelete (namespace name : string)
| CallLastWarnings (meta : ObjectMeta) (kind : string) (limit : Z)
| CallWaitForState (target pending : list string) (timeout : Z).

(** [conn]: the typed client for persistent volume claims of a namespace
    ([conn.CoreV1().PersistentVolumeClaims(ns)]) and the event lookup
    [getLastWarningsForObject(conn, ...)] of the package, over the state
    of the cluster behind them. *)
Record Client : Type := mkClient {
  Cluster : Type;
  claimsCreate : string -> PersistentVolumeClaim -> Cluster ->
                 (PersistentVolumeClaim + error) * Cluster;
  claimsGet : string -> string -> Cluster ->
              (PersistentVolumeClaim + error) * Cluster;
  claimsPatch : string -> string -> PatchType -> string -> Cluster ->
                (PersistentVolumeClaim + error) * Cluster;
  claimsDelete : string -> string -> Cluster -> option error * Cluster;
  lastWarningsForObject : ObjectMeta -> string -> Z -> Cluster ->
                          (list Event + error) * Cluster
}.

(** The translators and printers of the package that the file calls and
    does not define. *)
Record Structures : Type := mkStructures {
  expandMetadata : list Value -> ObjectMeta;
  expandPersistentVolumeClaimSpec : list Value -> PersistentVolumeClaimSpec + error;
  flattenMetadata : ObjectMeta -> ResourceData -> Value;
  flattenPersistentVolumeClaimSpec : PersistentVolumeClaimSpec -> Value;
  stringifyEvents : list Event -> string;
  MarshalJSON : PatchOperations -> string + error
}.

(** [resource.StateChangeConf] over the state [S] that its poll function
    threads. *)
Record StateChangeConf (S : Type) : Type := mkStateChangeConf {
  Target : list string;
  Pending : list string;
  Timeout : Z;
  Refresh : S -> (PersistentVolumeClaim * string * option error) * S
}.
Arguments mkStateChangeConf {S}.
Arguments Target {S}.
Arguments Pending {S}.
Arguments Timeout {S}.
Arguments Refresh {S}.

Definition inStates (s : string) (l : list string) : bool :=
  existsb (String.eqb s) l.

(** The create timeout the resource declares:
    [Timeouts: &schema.ResourceTimeout{Create: schema.DefaultTimeout(5 * time.Minute)}]. *)
Definition TimeoutsCreate : option Z := DefaultTimeout (5 * Minute).

Section Resource.

Context (conn : Client) (pkg : Structures).

(** The interval between two polls of the convergence waiter (the spec
    leaves it as a few seconds). *)
Variable PollInterval : Z.

(** ** State and effects *)

Record St : Type := mkSt {
  data : ResourceData;
  cluster : Cluster conn;
  calls : list Call
}.

Definition M (A : Type) : Type := St -> A * St.

Definition ret {A} (a : A) : M A := fun st => (a, st).
Definition bind {A B} (m : M A) (k : A -> M B) : M B :=
  fun st => let '(a, st') := m st in k a st'.

Notation "'let*' x ':=' m 'in' k" := (bind m (fun x => k))
  (at level 10, x name, m at level 100, k at level 200).

(** *** The resource data [d] *)

Definition getData : M ResourceData := fun st => (data st, st).
Definition Id : M string := fun st => (rdId (data st), st).
Definition SetId (id : string) : M unit :=
  fun st => (tt, mkSt (rdSetId id (data st)) (cluster st) (calls st)).
Definition Get (key : string) : M Value :=
  fun st => (rdGet key (data st), st).
Definition Set_ (key : string) (v : Value) : M (option error) :=
  fun st => let '(e, d') := rdSet key v (data st) in
            (e, mkSt d' (cluster st) (calls st)).

(** [d.Timeout(schema.TimeoutCreate)]: the timeout of the configuration,
    else the one the resource declares, else the 20 minutes of the
    schema layer. *)
Definition TimeoutCreate : M Z :=
  fun st => (match rdTimeoutCreate (data st) with
             | Some t => t
             | None => default (20 * Minute) TimeoutsCreate
             end, st).

(** *** The calls on [conn] *)

Definition remote {A} (c : Call) (f : Cluster conn -> A * Cluster conn) : M A :=
  fun st => let '(a, cl) := f (cluster st) in
            (a, mkSt (data st) cl (calls st ++ [c])%list).

Definition PersistentVolumeClaims_Create (ns : string) (claim : PersistentVolumeClaim)
  : M (PersistentVolumeClaim + error) :=
  remote (CallCreate ns claim) (claimsCreate conn ns claim).
Definition PersistentVolumeClaims_Get (ns name : string)
  : M (PersistentVolumeClaim + error) :=
  remote (CallGet ns name) (claimsGet conn ns name).
Definition PersistentVolumeClaims_Patch (ns name : string) (pt : PatchType) (body : string)
  : M (PersistentVolumeClaim + error) :=
  remote (CallPatch ns name pt body) (claimsPatch conn ns name pt body).
Definition PersistentVolumeClaims_Delete (ns name : string) : M (option error) :=
  remote (CallDelete ns name) (claimsDelete conn ns name).
Definition getLastWarningsForObject (meta : ObjectMeta) (kind : string) (limit : Z)
  : M (list Event + error) :=
  remote (CallLastWarnings meta kind limit) (lastWarningsForObject conn meta kind limit).

(** ** Convergence waiter *)

(** The polls that fit before the deadline. *)
Definition pollsBefore (timeout : Z) : nat :=
  S (Z.to_nat (timeout / PollInterval)).

(** Modelled from the spec: [WaitForState] belongs to the helper library
    of the provisioning tool.  Poll on a fixed interval and classify the
    phase: in the success set, resolve success with the observation; in
    the pending set, poll again; anything else, resolve failure with the
    unexpected phase; an error of the poll, resolve failure with that
    error; the deadline elapsed, resolve failure carrying the last
    observed phase. *)
Fixpoint waitLoop (polls : nat) (conf : StateChangeConf St) (last : string)
  : M (PersistentVolumeClaim + error) :=
  match polls with
  | O => ret (inr (TimeoutError last (Timeout conf)))
  | S polls' =>
      let* r := Refresh conf in
      let '(obs, phase, err) := r in
      match err with
      | Some e => ret (inr e)
      | None =>
          if inStates phase (Target conf) then ret (inl obs)
          else if inStates phase (Pending conf) then waitLoop polls' conf phase
          else ret (inr (UnexpectedStateError phase))
      end
  end.

Definition WaitForState (conf : StateChangeConf St)
  : M (PersistentVolumeClaim + error) :=
  fun st =>
    waitLoop (pollsBefore (Timeout conf)) conf ""
      (mkSt (data st) (cluster st)
            (calls st ++ [CallWaitForState (Target conf) (Pending conf) (Timeout conf)])%list).

(** ** Lifecycle operations *)

Definition resourceKubernetesPersistentVolumeClaimRead : M (option error) :=
  let* id := Id in
  match idParts id with
  | inr err => ret (Some err)
  | inl (namespace, name) =>
      let* r := PersistentVolumeClaims_Get namespace name in
      match r with
      | inr err => ret (Some err)
      | inl claim =>
          let* d := getData in
          let* err := Set_ "metadata" (flattenMetadata pkg (claimObjectMeta claim) d) in
          match err with
          | Some e => ret (Some e)
          | None =>
              let* err := Set_ "spec" (flattenPersistentVolumeClaimSpec pkg (claimSpec claim)) in
              match err with
              | Some e => ret (Some e)
              | None => ret None
              end
          end
      end
  end.

(** The [Refresh] closure of Create: it captures the namespace of the
    expanded metadata and the name of the created object. *)
Definition refreshClaim (namespace name : string)
  : M (PersistentVolumeClaim * string * option error) :=
  let* r := PersistentVolumeClaims_Get namespace name in
  match r with
  | inr err => ret (emptyClaim, "", Some err)
  | inl out => ret (out, Phase (claimStatus out), None)
  end.

Definition resourceKubernetesPersistentVolumeClaimCreate : M (option error) :=
  let* md := Get "metadata" in
  let metadata := expandMetadata pkg (asList md) in
  let* sp := Get "spec" in
  match expandPersistentVolumeClaimSpec pkg (asList sp) with
  | inr err => ret (Some err)
  | inl spec =>
      let claim := mkClaim metadata spec (mkStatus "") in
      let* r := PersistentVolumeClaims_Create (Namespace metadata) claim in
      match r with
      | inr err => ret (Some err)
      | inl out =>
          let* _ := SetId (buildId (claimObjectMeta out)) in
          let name := Name (claimObjectMeta out) in
          let* wait := Get "wait_until_bound" in
          if asBool wait then
            let* timeout := TimeoutCreate in
            let stateConf :=
              mkStateChangeConf ["Bound"] ["Pending"] timeout
                                (refreshClaim (Namespace metadata) name) in
            let* w := WaitForState stateConf in
            match w with
            | inr err =>
                let* lw := getLastWarningsForObject (claimObjectMeta out)
                                                    "PersistentVolumeClaim" 3 in
                match lw with
                | inr wErr => ret (Some wErr)
                | inl lastWarnings =>
                    if (length lastWarnings =? 0)%nat then
                      let* lw' := getLastWarningsForObject
                                    (mkObjectMeta (VolumeName (claimSpec out)) "" [] [])
                                    "PersistentVolume" 3 in
                      match lw' with
                      | inr wErr => ret (Some wErr)
                      | inl lastWarnings' =>
                          ret (Some (Errorf (Error err ++ stringifyEvents pkg lastWarnings')))
                      end
                    else
                      ret (Some (Errorf (Error err ++ stringifyEvents pkg lastWarnings)))
                end
            | inl _ => resourceKubernetesPersistentVolumeClaimRead
            end
          else resourceKubernetesPersistentVolumeClaimRead
      end
  end.

Definition resourceKubernetesPersistentVolumeClaimUpdate : M (option error) :=
  let* id := Id in
  match idParts id with
  | inr err => ret (Some err)
  | inl (namespace, name) =>
      let* d := getData in
      let ops := patchMetadata "metadata.0." "/metadata/" d in
      match MarshalJSON pkg ops with
      | inr err =>
          ret (Some (Errorf ("Failed to marshal update operations: " ++ Error err)))
      | inl body =>
          let* r := PersistentVolumeClaims_Patch namespace name JSONPatchType body in
          match r with
          | inr err => ret (Some err)
          | inl _ => resourceKubernetesPersistentVolumeClaimRead
          end
      end
  end.

Definition resourceKubernetesPersistentVolumeClaimDelete : M (option error) :=
  let* id := Id in
  match idParts id with
  | inr err => ret (Some err)
  | inl (namespace, name) =>
      let* err := PersistentVolumeClaims_Delete namespace name in
      match err with
      | Some e => ret (Some e)
      | None => let* _ := SetId "" in ret None
      end
  end.

Definition resourceKubernetesPersistentVolumeClaimExists : M (bool * option error) :=
  let* id := Id in
  match idParts id with
  | inr err => ret (false, Some err)
  | inl (namespace, name) =>
      let* r := PersistentVolumeClaims_Get namespace name in
      let err := match r with inr e => Some e | inl _ => None end in
      match err with
      | Some e =>
          match statusCode e with
          | Some code => if code =? 404 then ret (false, None) else ret (true, err)
          | None => ret (true, err)
          end
      | None => ret (true, err)
      end
  end.

(** The [State] function of the importer. *)
Definition importerState : M (list ResourceData * option error) :=
  let* _ := Set_ "wait_until_bound" (VBool true) in
  let* d := getData in
  ret ([d], None).

(** [*schema.Resource]: the operations, the importer, the timeouts and
    the schema of a resource. *)
Record Resource : Type := mkResource {
  resCreate : M (option error);
  resRead : M (option error);
  resExists : M (bool * option error);
  resUpdate : M (option error);
  resDelete : M (option error);
  resImporterState : M (list ResourceData * option error);
  resTimeoutsCreate : option Z;
  resSchema : gmap string ValueType
}.

Definition resourceKubernetesPersistentVolumeClaim : Resource :=
  mkResource resourceKubernetesPersistentVolumeClaimCreate
             resourceKubernetesPersistentVolumeClaimRead
             resourceKubernetesPersistentVolumeClaimExists
             resourceKubernetesPersistentVolumeClaimUpdate
             resourceKubernetesPersistentVolumeClaimDelete
             importerState
             TimeoutsCreate
             (persistentVolumeClaimSpecFields false).

End Resource.

Arguments mkSt {conn}.
Arguments data {conn}.
Arguments cluster {conn}.
Arguments calls {conn}.

(** ** A scripted cluster

    A client whose answers are written down in advance: the answer to the
    creation request, the answers to the successive reads (the last
    entry [getsAfter] repeats), the answers to patch and delete, and the
    warning events per object kind. *)

Record Script : Type := mkScript {
  onCreate : PersistentVolumeClaim + error;
  gets : list (PersistentVolumeClaim + error);
  getsAfter : PersistentVolumeClaim + error;
  onPatch : PersistentVolumeClaim + error;
  onDelete : option error;
  warningsOf : string -> list Event + error
}.

Definition scriptedGet (s : Script) : (PersistentVolumeClaim + error) * Script :=
  match gets s with
  | [] => (getsAfter s, s)
  | r :: rest => (r, mkScript (onCreate s) rest (getsAfter s) (onPatch s)
                              (onDelete s) (warningsOf s))
  end.

Definition scripted : Client :=
  mkClient Script
           (fun _ _ s => (onCreate s, s))
           (fun _ _ s => scriptedGet s)
           (fun _ _ _ _ s => (onPatch s, s))
           (fun _ _ s => (onDelete s, s))
           (fun _ kind _ s => (warningsOf s kind, s)).

(** Translators for the examples: the metadata and the spec are lists of
    one map each. *)
Definition mapString (k : string) (l : list Value) : string :=
  match l with
  | VMap m :: _ => asString (default (VString "") (assoc k m))
  | _ => ""
  end.

Definition plainStructures : Structures :=
  mkStructures
    (fun l => mkObjectMeta (mapString "name" l) (mapString "namespace" l) [] [])
    (fun l => inl (mkSpec ["ReadWriteOnce"] (mapString "storage" l)
                          (mapString "storage_class_name" l)
                          (mapString "volume_name" l)))
    (fun m _ => VList [VMap [("name", VString (Name m));
                             ("namespace", VString (Namespace m))]])
    (fun s => VList [VMap [("storage", VString (StorageRequest s));
                           ("storage_class_name", VString (StorageClassName s));
                           ("volume_name", VString (VolumeName s))]])
    (fun evs => String.concat ""
                  (map (fun e => "; " ++ involvedName e ++ ": " ++ eventReason e
                                      ++ ": " ++ eventMessage e) evs))
    (fun ops => inl (String.concat "," (map opPath ops))).

(** A claim [default/data] in a given phase, bound to a given volume. *)
Definition claimIn (phase volume : string) : PersistentVolumeClaim :=
  mkClaim (mkObjectMeta "data" "default" [] [])
          (mkSpec ["ReadWriteOnce"] "1Gi" "standard" volume)
          (mkStatus phase).

Definition notFound : error := StatusError 404 "persistentvolumeclaims data not found".
Definition forbidden : error := StatusError 403 "persistentvolumeclaims data is forbidden".
Definition refused : error := OtherError "dial tcp: connection refused".

Definition provisioningFailed : Event :=
  mkEvent "data" "PersistentVolumeClaim" "Warning" "ProvisioningFailed"
          "storageclass standard not found" 1700000000.

Definition volumeFailed : Event :=
  mkEvent "pv-1" "PersistentVolume" "Warning" "VolumeFailedMount"
          "unable to attach" 1700000100.

(** The resource data of a fresh configuration of [default/data]. *)
Definition freshData (wait : bool) : ResourceData :=
  mkResourceData ""
    ∅
    (<["metadata" := VList [VMap [("name", VString "data");
                                  ("namespace", VString "default");
                                  ("labels", VMap [("app", VString "db")])]]]>
     (<["spec" := VList [VMap [("storage", VString "1Gi");
                               ("storage_class_name", VString "standard");
                               ("volume_name", VString "")]]]>
     (<["wait_until_bound" := VBool wait]> ∅)))
    None.

(** The resource data of [default/data] once it is recorded, with a label
    changed in the configuration. *)
Definition knownData : ResourceData :=
  mkResourceData "default/data"
    (<["metadata" := VList [VMap [("name", VString "data");
                                  ("namespace", VString "default");
                                  ("labels", VMap [("app", VString "db");
                                                   ("tier", VString "old")])]]]>
     (<["spec" := VList [VMap [("storage", VString "1Gi")]]]> ∅))
    (<["metadata" := VList [VMap [("name", VString "data");
                                  ("namespace", VString "default");
                                  ("labels", VMap [("app", VString "web");
                                                   ("env", VString "prod")])]]]>
     (<["spec" := VList [VMap [("storage", VString "2Gi")]]]>
     (<["wait_until_bound" := VBool true]> ∅)))
    None.

Definition start (d : ResourceData) (s : Script) : St scripted :=
  @mkSt scripted d s [].

(** ** Predicates of the statements *)

(** A not-found answer of the cluster: a status error of code 404. *)
Definition isNotFound (e : error) : bool :=
  match statusCode e with
  | Some code => code =? 404
  | None => false
  end.

(** No delimiter of the identity codec occurs in the string. *)
Fixpoint slashFree (s : string) : bool :=
  match s with
  | EmptyString => true
  | String c rest => negb (Ascii.eqb c "/") && slashFree rest
  end.

(** ** The stages of Create *)

Section Stages.

Context (conn : Client) (pkg : Structures) (PollInterval : Z).

(** The metadata Create expands from the configuration, and the object it
    submits for a given expanded spec. *)
Definition createMetadata (st : St conn) : ObjectMeta :=
  expandMetadata pkg (asList (rdGet "metadata" (data st))).

Definition createRequest (st : St conn) (spec : PersistentVolumeClaimSpec)
  : PersistentVolumeClaim :=
  mkClaim (createMetadata st) spec (mkStatus "").

(** The state in which Create goes on once the cluster has answered the
    creation request with [out]: the identity is recorded. *)
Definition afterCreate (st : St conn) (spec : PersistentVolumeClaimSpec)
    (out : PersistentVolumeClaim) (cl : Cluster conn) : St conn :=
  mkSt (rdSetId (buildId (claimObjectMeta out)) (data st)) cl
       (calls st ++ [CallCreate (Namespace (createMetadata st)) (createRequest st spec)])%list.

(** The creation request of Create in [st] succeeded with [out] and left
    the state [st1]. *)
Definition Created (st : St conn) (out : PersistentVolumeClaim) (st1 : St conn) : Prop :=
  exists spec cl,
    expandPersistentVolumeClaimSpec pkg (asList (rdGet "spec" (data st))) = inl spec /\
    claimsCreate conn (Namespace (createMetadata st)) (createRequest st spec) (cluster st)
      = (inl out, cl) /\
    st1 = afterCreate st spec out cl.

(** The deadline of the wait: the create timeout of the configuration,
    5 minutes when there is none. *)
Definition createDeadline (d : ResourceData) : Z :=
  default (5 * Minute) (rdTimeoutCreate d).

(** The wait of Create for the object [out]: success on [Bound], pending
    on [Pending], polling the claim by the namespace of the configuration
    and the name of [out]. *)
Definition boundConf (st : St conn) (out : PersistentVolumeClaim)
  : StateChangeConf (St conn) :=
  mkStateChangeConf ["Bound"] ["Pending"] (createDeadline (data st))
    (refreshClaim conn (Namespace (createMetadata st)) (Name (claimObjectMeta out))).

(** Create in [st] had its creation request answered with [out], waited
    because the wait flag is set, and the wait failed with [err] in the
    state [st2]. *)
Definition WaitFailed (st : St conn) (out : PersistentVolumeClaim)
    (err : error) (st2 : St conn) : Prop :=
  exists st1,
    Created st out st1 /\
    asBool (rdGet "wait_until_bound" (data st)) = true /\
    WaitForState conn PollInterval (boundConf st out) st1 = (inr err, st2).

(** The two event lookups of Create. *)
Definition primaryLookup (out : PersistentVolumeClaim) : Call :=
  CallLastWarnings (claimObjectMeta out) "PersistentVolumeClaim" 3.

Definition relatedLookup (out : PersistentVolumeClaim) : Call :=
  CallLastWarnings (mkObjectMeta (VolumeName (claimSpec out)) "" [] [])
                   "PersistentVolume" 3.

End Stages.

(** ** Scenarios on the scripted cluster *)

(** The creation is acknowledged without a volume name, the claim is
    then seen [Pending] and [Lost]; no warning event exists. *)
Definition lostScript : Script :=
  mkScript (inl (claimIn "" ""))
           [inl (claimIn "Pending" ""); inl (claimIn "Lost" "")]
           (inl (claimIn "Lost" ""))
           (inl (claimIn "Lost" ""))
           None
           (fun _ => inl []).

(** The same, with a warning event on the claim. *)
Definition lostWithWarning : Script :=
  mkScript (inl (claimIn "" ""))
           [inl (claimIn "Pending" ""); inl (claimIn "Lost" "")]
           (inl (claimIn "Lost" ""))
           (inl (claimIn "Lost" ""))
           None
           (fun kind => if String.eqb kind "PersistentVolumeClaim"
                        then inl [provisioningFailed] else inl []).

(** The claim stays [Pending] for ever. *)
Definition pendingScript : Script :=
  mkScript (inl (claimIn "" ""))
           []
           (inl (claimIn "Pending" ""))
           (inl (claimIn "Pending" ""))
           None
           (fun _ => inl []).

(** The claim is bound at the third poll. *)
Definition boundScript : Script :=
  mkScript (inl (claimIn "" ""))
           [inl (claimIn "Pending" ""); inl (claimIn "Pending" "")]
           (inl (claimIn "Bound" "pv-1"))
           (inl (claimIn "Bound" "pv-1"))
           None
           (fun _ => inl []).

(** The claim is gone: reads and deletes answer not found. *)
Definition goneScript : Script :=
  mkScript (inr notFound) [] (inr notFound) (inr notFound) (Some notFound)
           (fun _ => inl []).

(** The cluster refuses: reads answer with a status that is not 404. *)
Definition forbiddenScript : Script :=
  mkScript (inr forbidden) [] (inr forbidden) (inr forbidden) (Some forbidden)
           (fun _ => inl []).

(** The state in which the wait of the lost claim has failed. *)
Definition lostState (s : Script) : St scripted :=
  @mkSt scripted
    (rdSetId "default/data" (freshData true))
    (mkScript (onCreate s) [] (getsAfter s) (onPatch s) (onDelete s) (warningsOf s))
    [CallCreate "default" (mkClaim (mkObjectMeta "data" "default" [] [])
                                   (mkSpec ["ReadWriteOnce"] "1Gi" "standard" "")
                                   (mkStatus ""));
     CallWaitForState ["Bound"] ["Pending"] (5 * Minute);
     CallGet "default" "data"; CallGet "default" "data"].

(** The state in which Create goes on after the creation request, on a
    script that acknowledges the claim [default/data]. *)
Definition createdState (s : Script) : St scripted :=
  afterCreate scripted plainStructures (start (freshData true) s)
              (mkSpec ["ReadWriteOnce"] "1Gi" "standard" "") (claimIn "" "") s.

(** The state in which the wait for the claim that stays [Pending] has
    run into the deadline of 5 minutes, polling every 3 seconds. *)
Definition expiredState : St scripted :=
  @mkSt scripted
    (rdSetId "default/data" (freshData true))
    pendingScript
    (calls (createdState pendingScript)
     ++ CallWaitForState ["Bound"] ["Pending"] (5 * Minute)
     :: repeat (CallGet "default" "data") 101)%list.

(** Resource data whose identity has no delimiter. *)
Definition malformedData : ResourceData := rdSetId "data" knownData.

(** Helpers that refuse the spec of the configuration and cannot encode
    a patch. *)
Definition brokenStructures : Structures :=
  mkStructures
    (expandMetadata plainStructures)
    (fun _ => inr (Errorf "spec: storage request is missing"))
    (flattenMetadata plainStructures)
    (flattenPersistentVolumeClaimSpec plainStructures)
    (stringifyEvents plainStructures)
    (fun _ => inr (OtherError "json: unsupported value")).

(** The state in which the wait for the claim that gets bound at the
    third poll has succeeded. *)
Definition boundState : St scripted :=
  @mkSt scripted
    (rdSetId "default/data" (freshData true))
    (mkScript (onCreate boundScript) [] (getsAfter boundScript) (onPatch boundScript)
              (onDelete boundScript) (warningsOf boundScript))
    (calls (createdState boundScript)
     ++ CallWaitForState ["Bound"] ["Pending"] (5 * Minute)
     :: repeat (CallGet "default" "data") 3)%list.

(** * Properties *)

(** ** The identity codec *)

Lemma splitOn_slashFree (s : string) :
  slashFree s = true -> splitOn "/" s = [s].
Proof.
  induction s as [|c rest IH]; simpl; [reflexivity|].
  intros H. apply andb_true_iff in H as [Hc Hrest].
  apply negb_true_iff in Hc. rewrite Hc, (IH Hrest). reflexivity.
Qed.

Lemma splitOn_segment (a b : string) :
  slashFree a = true -> splitOn "/" (a ++ "/" ++ b) = a :: splitOn "/" b.
Proof.
  induction a as [|c rest IH]; simpl; [reflexivity|].
  intros H. apply andb_true_iff in H as [Hc Hrest].
  apply negb_true_iff in Hc. rewrite Hc, (IH Hrest). reflexivity.
Qed.

Lemma idParts_buildId (meta : ObjectMeta) :
  slashFree (Namespace meta) = true -> slashFree (Name meta) = true ->
  idParts (buildId meta) = inl (Namespace meta, Name meta).
Proof.
  intros Hns Hname. unfold idParts, buildId.
  rewrite (splitOn_segment _ _ Hns), (splitOn_slashFree _ Hname). reflexivity.
Qed.

Lemma buildId_not_empty (meta : ObjectMeta) : buildId meta <> "".
Proof.
  unfold buildId. destruct (Namespace meta); simpl; discriminate.
Qed.

(** ** Patch documents *)

Lemma prefix_append (p a b : string) : String.prefix p ((p ++ a) ++ b) = true.
Proof.
  induction p as [|c p IH].
  - change (String.prefix "" (a ++ b) = true). destruct (a ++ b); reflexivity.
  - change (String.prefix (String c p) (String c ((p ++ a) ++ b)) = true).
    cbn [String.prefix]. destruct (ascii_dec c c) as [_|Hc]; [exact IH|contradiction].
Qed.

Lemma diffStringMap_paths (pathPrefix : string) (oldV newV : list (string * Value))
    (op : PatchOperation) :
  In op (diffStringMap pathPrefix oldV newV) ->
  exists k, opPath op = pathPrefix ++ "/" ++ k.
Proof.
  unfold diffStringMap. intros Hin.
  apply in_app_or in Hin as [Hin|Hin]; apply in_flat_map in Hin as ([k v] & _ & Hin);
    cbn [fst snd] in Hin.
  - destruct (assoc k newV); [destruct Hin|].
    destruct Hin as [<-|[]]. exists k. reflexivity.
  - destruct (assoc k oldV) as [[b|o|l|m]|];
      try (destruct Hin as [<-|[]]; exists k; reflexivity).
    destruct (String.eqb o (asString v)); [destruct Hin|].
    destruct Hin as [<-|[]]. exists k. reflexivity.
Qed.

Lemma patchMetadata_paths (keyPrefix pathPrefix : string) (d : ResourceData)
    (op : PatchOperation) :
  In op (patchMetadata keyPrefix pathPrefix d) ->
  String.prefix pathPrefix (opPath op) = true.
Proof.
  unfold patchMetadata. intros Hin.
  destruct (rdGetChange (keyPrefix ++ "annotations") d) as [oa na].
  destruct (rdGetChange (keyPrefix ++ "labels") d) as [ol nl].
  apply in_app_or in Hin as [Hin|Hin];
    apply diffStringMap_paths in Hin as [k ->]; apply prefix_append.
Qed.

Lemma patchMetadata_frame (pathPrefix : string) (d d' : ResourceData) :
  rdState d' !! "metadata" = rdState d !! "metadata" ->
  rdAttrs d' !! "metadata" = rdAttrs d !! "metadata" ->
  patchMetadata "metadata.0." pathPrefix d' = patchMetadata "metadata.0." pathPrefix d.
Proof.
  intros Hstate Hattrs.
  unfold patchMetadata, rdGetChange, lookupKey.
  replace (splitOn "." ("metadata.0." ++ "annotations"))
    with ["metadata"; "0"; "annotations"] by reflexivity.
  replace (splitOn "." ("metadata.0." ++ "labels"))
    with ["metadata"; "0"; "labels"] by reflexivity.
  rewrite Hstate, Hattrs. reflexivity.
Qed.

Section Properties.

Context (conn : Client) (pkg : Structures) (PollInterval : Z).

Abbreviation State := (St conn).
Abbreviation Create := (resourceKubernetesPersistentVolumeClaimCreate conn pkg PollInterval).
Abbreviation Read := (resourceKubernetesPersistentVolumeClaimRead conn pkg).
Abbreviation Update := (resourceKubernetesPersistentVolumeClaimUpdate conn pkg).
Abbreviation Delete := (resourceKubernetesPersistentVolumeClaimDelete conn).
Abbreviation Exists := (resourceKubernetesPersistentVolumeClaimExists conn).

(** ** The calls of Read and Delete *)

Lemma Read_calls (s : State) (ns name : string) :
  idParts (rdId (data s)) = inl (ns, name) ->
  calls (snd (Read s)) = (calls s ++ [CallGet ns name])%list.
Proof.
  intros Hid.
  unfold resourceKubernetesPersistentVolumeClaimRead, bind, Id,
    PersistentVolumeClaims_Get, remote, getData, Set_, ret.
  rewrite Hid. cbn [data cluster calls].
  destruct (claimsGet conn ns name (cluster s)) as [[claim|e] cl]; [|reflexivity].
  cbn [data cluster calls].
  destruct (rdSet "metadata" _ (data s)) as [[e|] d1]; [reflexivity|].
  cbn [data cluster calls].
  destruct (rdSet "spec" _ d1) as [[e|] d2]; reflexivity.
Qed.

Lemma Read_calls_extend (s : State) :
  exists rest, calls (snd (Read s)) = (calls s ++ rest)%list /\
               forall c, In c rest -> exists ns name, c = CallGet ns name.
Proof.
  destruct (idParts (rdId (data s))) as [[ns name]|e] eqn:Hid.
  - exists [CallGet ns name]. split; [exact (Read_calls s ns name Hid)|].
    intros c [<-|[]]. eauto.
  - exists []. split; [|intros c []].
    unfold resourceKubernetesPersistentVolumeClaimRead, bind, Id, ret.
    rewrite Hid. cbn [snd]. now rewrite app_nil_r.
Qed.

Lemma Delete_calls (s : State) (ns name : string) :
  idParts (rdId (data s)) = inl (ns, name) ->
  calls (snd (Delete s)) = (calls s ++ [CallDelete ns name])%list.
Proof.
  intros Hid.
  unfold resourceKubernetesPersistentVolumeClaimDelete, bind, Id,
    PersistentVolumeClaims_Delete, remote, SetId, ret.
  rewrite Hid. cbn [data cluster calls].
  destruct (claimsDelete conn ns name (cluster s)) as [[e|] cl]; reflexivity.
Qed.

(** ** Exists *)

(** C3: when the identity decodes, the existence probe answers
    [(true, nil)] if the remote Get succeeds, [(false, nil)] if it fails
    with a status error of code 404, and hands any other error of the
    Get back unchanged. *)
Theorem exists_semantics (st : State) (ns name : string)
    (r : PersistentVolumeClaim + error) (cl : Cluster conn) :
  idParts (rdId (data st)) = inl (ns, name) ->
  claimsGet conn ns name (cluster st) = (r, cl) ->
  match r with
  | inl _ => fst (Exists st) = (true, None)
  | inr e =>
      if isNotFound e then fst (Exists st) = (false, None)
      else snd (fst (Exists st)) = Some e
  end.
Proof.
  intros Hid Hget.
  unfold resourceKubernetesPersistentVolumeClaimExists, bind, Id,
    PersistentVolumeClaims_Get, remote, ret.
  rewrite Hid, Hget. simpl.
  destruct r as [claim|e]; [reflexivity|].
  unfold isNotFound.
  destruct (statusCode e) as [code|]; [|reflexivity].
  destruct (code =? 404); reflexivity.
Qed.

(** C10: when the remote Get of the existence probe fails with an error
    that is not a status error of code 404, the probe returns that error
    together with the boolean [true]. *)
Theorem exists_true_on_other_errors (st : State) (ns name : string)
    (e : error) (cl : Cluster conn) :
  idParts (rdId (data st)) = inl (ns, name) ->
  claimsGet conn ns name (cluster st) = (inr e, cl) ->
  isNotFound e = false ->
  fst (Exists st) = (true, Some e).
Proof.
  intros Hid Hget Hcode.
  unfold resourceKubernetesPersistentVolumeClaimExists, bind, Id,
    PersistentVolumeClaims_Get, remote, ret.
  rewrite Hid, Hget. simpl.
  unfold isNotFound in Hcode.
  destruct (statusCode e) as [code|]; [|reflexivity].
  rewrite Hcode. reflexivity.
Qed.

(** ** Delete *)

(** C1 (amended): when the identity decodes, Delete resolves to success
    and clears the local identity exactly when the remote Delete call
    succeeds; an error of the remote call, a not-found status included,
    is returned unchanged and the local identity stays as it was. *)
Theorem delete_propagates_remote_result (st : State) (ns name : string)
    (r : option error) (cl : Cluster conn) :
  idParts (rdId (data st)) = inl (ns, name) ->
  claimsDelete conn ns name (cluster st) = (r, cl) ->
  fst (Delete st) = r /\
  calls (snd (Delete st)) = (calls st ++ [CallDelete ns name])%list /\
  rdId (data (snd (Delete st))) =
    match r with
    | None => ""
    | Some _ => rdId (data st)
    end.
Proof.
  intros Hid Hdel.
  unfold resourceKubernetesPersistentVolumeClaimDelete, bind, Id,
    PersistentVolumeClaims_Delete, remote, ret, SetId.
  rewrite Hid, Hdel. simpl.
  destruct r; simpl; auto.
Qed.

(** ** Import *)

(** C9: the importer takes every resource data, whatever its identity
    string: it returns that one resource data with the wait flag set to
    true and no error, keeps the identity, and leaves the cluster and
    the log of calls untouched. *)
Theorem import_seeds_wait_flag (st : State) :
  let d' := mkResourceData (rdId (data st)) (rdState (data st))
              (<["wait_until_bound" := VBool true]> (rdAttrs (data st)))
              (rdTimeoutCreate (data st)) in
  importerState conn st = (([d'], None), mkSt d' (cluster st) (calls st)) /\
  asBool (rdGet "wait_until_bound" d') = true /\
  rdId d' = rdId (data st).
Proof.
  repeat split.
  unfold rdGet. simpl. rewrite lookup_insert_eq. reflexivity.
Qed.

(** ** Create: the path to the wait *)

Local Notation "'let*' x ':=' m 'in' k" := (bind conn m (fun x => k))
  (at level 10, x name, m at level 100, k at level 200).

Lemma timeoutCreate_deadline (st : State) :
  TimeoutCreate conn st = (createDeadline (data st), st).
Proof.
  unfold TimeoutCreate, createDeadline. destruct (rdTimeoutCreate (data st)); reflexivity.
Qed.

(** What Create does from the state in which the creation request has
    been answered. *)
Lemma Create_created (st st1 : State) (out : PersistentVolumeClaim) :
  Created conn pkg st out st1 ->
  Create st =
  (if asBool (rdGet "wait_until_bound" (data st)) then
     let* w := WaitForState conn PollInterval (boundConf conn pkg st out) in
     match w with
     | inr err =>
         let* lw := getLastWarningsForObject conn (claimObjectMeta out)
                                             "PersistentVolumeClaim" 3 in
         match lw with
         | inr wErr => ret conn (Some wErr)
         | inl lastWarnings =>
             if (length lastWarnings =? 0)%nat then
               let* lw' := getLastWarningsForObject conn
                             (mkObjectMeta (VolumeName (claimSpec out)) "" [] [])
                             "PersistentVolume" 3 in
               match lw' with
               | inr wErr => ret conn (Some wErr)
               | inl lastWarnings' =>
                   ret conn (Some (Errorf (Error err ++ stringifyEvents pkg lastWarnings')))
               end
             else ret conn (Some (Errorf (Error err ++ stringifyEvents pkg lastWarnings)))
         end
     | inl _ => Read
     end
   else Read) st1.
Proof.
  intros (spec & cl & Hspec & Hcreate & ->).
  unfold createRequest, createMetadata in Hspec, Hcreate.
  unfold resourceKubernetesPersistentVolumeClaimCreate, bind, Get,
    PersistentVolumeClaims_Create, remote, SetId, afterCreate,
    createRequest, createMetadata.
  cbn [data cluster calls].
  rewrite Hspec, Hcreate.
  cbn [data cluster calls].
  change (rdGet "wait_until_bound"
            (rdSetId (buildId (claimObjectMeta out)) (data st)))
    with (rdGet "wait_until_bound" (data st)).
  destruct (asBool (rdGet "wait_until_bound" (data st))); [|reflexivity].
  rewrite timeoutCreate_deadline.
  reflexivity.
Qed.

(** ** The waiter observes and never mutates *)

Lemma refreshClaim_frame (ns name : string) (s : State) :
  data (snd (refreshClaim conn ns name s)) = data s /\
  calls (snd (refreshClaim conn ns name s)) = (calls s ++ [CallGet ns name])%list.
Proof.
  unfold refreshClaim, bind, PersistentVolumeClaims_Get, remote, ret.
  destruct (claimsGet conn ns name (cluster s)) as [[claim|e] cl]; split; reflexivity.
Qed.

Lemma waitLoop_frame (ns name : string) (target pending : list string) (timeout : Z)
    (polls : nat) :
  forall (last : string) (s : State),
    let conf := mkStateChangeConf target pending timeout (refreshClaim conn ns name) in
    data (snd (waitLoop conn polls conf last s)) = data s /\
    exists k, calls (snd (waitLoop conn polls conf last s))
              = (calls s ++ repeat (CallGet ns name) k)%list.
Proof.
  induction polls as [|polls IH]; intros last s conf.
  - split; [reflexivity|]. exists 0%nat. simpl. now rewrite app_nil_r.
  - cbn [waitLoop]. unfold bind. subst conf. cbn [Refresh Target Pending].
    destruct (refreshClaim_frame ns name s) as [Hd Hc].
    destruct (refreshClaim conn ns name s) as [[[obs phase] err] s'].
    cbn [snd] in Hd, Hc.
    assert (Hone : calls s' = (calls s ++ repeat (CallGet ns name) 1)%list)
      by exact Hc.
    destruct err as [e|].
    { split; [exact Hd|]. exists 1%nat. exact Hone. }
    destruct (inStates phase target).
    { split; [exact Hd|]. exists 1%nat. exact Hone. }
    destruct (inStates phase pending).
    + destruct (IH phase s') as [Hd' [k Hk]]. split.
      * rewrite Hd'. exact Hd.
      * exists (S k). rewrite Hk, Hc, <- app_assoc. reflexivity.
    + split; [exact Hd|]. exists 1%nat. exact Hone.
Qed.

Lemma WaitForState_frame (ns name : string) (target pending : list string)
    (timeout : Z) (s : State) :
  let conf := mkStateChangeConf target pending timeout (refreshClaim conn ns name) in
  data (snd (WaitForState conn PollInterval conf s)) = data s /\
  exists k, calls (snd (WaitForState conn PollInterval conf s))
            = (calls s ++ CallWaitForState target pending timeout
                       :: repeat (CallGet ns name) k)%list.
Proof.
  intros conf. unfold WaitForState.
  destruct (waitLoop_frame ns name target pending timeout
              (pollsBefore PollInterval (Timeout conf)) ""
              (mkSt (data s) (cluster s)
                 (calls s ++ [CallWaitForState (Target conf) (Pending conf) (Timeout conf)])%list))
    as [Hd [k Hk]].
  split; [exact Hd|]. exists k. subst conf. cbn [Target Pending Timeout] in *.
  rewrite Hk. cbn [calls]. rewrite <- app_assoc. reflexivity.
Qed.

(** Where a failed wait of Create leaves the resource data and the log. *)
Lemma WaitFailed_frame (st st2 : State) (out : PersistentVolumeClaim) (err : error) :
  WaitFailed conn pkg PollInterval st out err st2 ->
  data st2 = rdSetId (buildId (claimObjectMeta out)) (data st) /\
  exists spec k,
    calls st2 =
    (calls st ++
     CallCreate (Namespace (createMetadata conn pkg st)) (createRequest conn pkg st spec)
     :: CallWaitForState ["Bound"] ["Pending"] (createDeadline (data st))
     :: repeat (CallGet (Namespace (createMetadata conn pkg st))
                        (Name (claimObjectMeta out))) k)%list.
Proof.
  intros (st1 & (spec & cl & _ & _ & ->) & _ & Hwait).
  destruct (WaitForState_frame (Namespace (createMetadata conn pkg st))
              (Name (claimObjectMeta out)) ["Bound"] ["Pending"]
              (createDeadline (data st)) (afterCreate conn pkg st spec out cl))
    as [Hd [k Hk]].
  unfold boundConf in Hwait. rewrite Hwait in Hd, Hk. cbn [snd] in Hd, Hk.
  split; [exact Hd|]. exists spec, k. rewrite Hk.
  unfold afterCreate. cbn [calls]. rewrite <- app_assoc. reflexivity.
Qed.

(** What Create does once its wait has failed. *)
Lemma Create_wait_failed (st st2 : State) (out : PersistentVolumeClaim) (err : error) :
  WaitFailed conn pkg PollInterval st out err st2 ->
  Create st =
  (let* lw := getLastWarningsForObject conn (claimObjectMeta out)
                                      "PersistentVolumeClaim" 3 in
   match lw with
   | inr wErr => ret conn (Some wErr)
   | inl lastWarnings =>
       if (length lastWarnings =? 0)%nat then
         let* lw' := getLastWarningsForObject conn
                       (mkObjectMeta (VolumeName (claimSpec out)) "" [] [])
                       "PersistentVolume" 3 in
         match lw' with
         | inr wErr => ret conn (Some wErr)
         | inl lastWarnings' =>
             ret conn (Some (Errorf (Error err ++ stringifyEvents pkg lastWarnings')))
         end
       else ret conn (Some (Errorf (Error err ++ stringifyEvents pkg lastWarnings)))
   end) st2.
Proof.
  intros (st1 & Hcreated & Hflag & Hwait).
  rewrite (Create_created st st1 out Hcreated), Hflag.
  unfold bind at 1. rewrite Hwait. reflexivity.
Qed.

(** ** Create: diagnostics after a failed wait *)

(** C5: after a failed wait of Create, an event lookup that fails (the
    one of the claim, or the one of the volume when it is made) makes
    Create return the error of that lookup alone; otherwise Create
    returns an error whose text is the text of the wait error followed by
    the rendering of the collected events. *)
Theorem create_failure_report (st st2 : State) (out : PersistentVolumeClaim)
    (err : error) :
  WaitFailed conn pkg PollInterval st out err st2 ->
  let '(lw, cl3) := lastWarningsForObject conn (claimObjectMeta out)
                      "PersistentVolumeClaim" 3 (cluster st2) in
  match lw with
  | inr wErr => fst (Create st) = Some wErr
  | inl [] =>
      let '(lw', _) := lastWarningsForObject conn
                         (mkObjectMeta (VolumeName (claimSpec out)) "" [] [])
                         "PersistentVolume" 3 cl3 in
      match lw' with
      | inr wErr => fst (Create st) = Some wErr
      | inl related =>
          fst (Create st) = Some (Errorf (Error err ++ stringifyEvents pkg related))
      end
  | inl primary =>
      fst (Create st) = Some (Errorf (Error err ++ stringifyEvents pkg primary))
  end.
Proof.
  intros Hfailed. rewrite (Create_wait_failed _ _ _ _ Hfailed).
  unfold bind, getLastWarningsForObject, remote, ret. cbn [cluster].
  destruct (lastWarningsForObject conn (claimObjectMeta out) _ _ (cluster st2))
    as [[[|ev primary]|wErr] cl3]; cbn [length Nat.eqb cluster]; try reflexivity.
  destruct (lastWarningsForObject conn _ "PersistentVolume" 3 cl3)
    as [[related|wErr] cl4]; reflexivity.
Qed.

(** C6: after a failed wait of Create, the log goes on with the lookup of
    the warning events of the claim, capped at 3, and then with the
    lookup of the warning events of the volume, capped at 3 as well,
    exactly when the first lookup succeeded with no event; nothing else
    is called. *)
Theorem diagnostics_fallback (st st2 : State) (out : PersistentVolumeClaim)
    (err : error) :
  WaitFailed conn pkg PollInterval st out err st2 ->
  calls (snd (Create st)) =
  (calls st2 ++
   primaryLookup out ::
   match fst (lastWarningsForObject conn (claimObjectMeta out)
                "PersistentVolumeClaim" 3 (cluster st2)) with
   | inl [] => [relatedLookup out]
   | _ => []
   end)%list.
Proof.
  intros Hfailed. rewrite (Create_wait_failed _ _ _ _ Hfailed).
  unfold bind, getLastWarningsForObject, remote, ret, primaryLookup, relatedLookup.
  cbn [cluster].
  destruct (lastWarningsForObject conn (claimObjectMeta out) _ _ (cluster st2))
    as [[[|ev primary]|wErr] cl3]; cbn [length Nat.eqb cluster calls fst snd];
    try reflexivity.
  destruct (lastWarningsForObject conn _ "PersistentVolume" 3 cl3)
    as [[related|wErr] cl4]; cbn [calls snd]; rewrite <- app_assoc; reflexivity.
Qed.

(** C2 (amended): after a failed wait of Create, when the lookup of the
    warning events of the claim succeeds with no event, Create looks up
    the warning events of the volume named by the answer to the creation
    request, whatever that name is, the empty name included. *)
Theorem related_lookup_always_made (st st2 : State) (out : PersistentVolumeClaim)
    (err : error) (cl3 : Cluster conn) :
  WaitFailed conn pkg PollInterval st out err st2 ->
  lastWarningsForObject conn (claimObjectMeta out) "PersistentVolumeClaim" 3 (cluster st2)
    = (inl [], cl3) ->
  In (CallLastWarnings (mkObjectMeta (VolumeName (claimSpec out)) "" [] [])
                       "PersistentVolume" 3)
     (calls (snd (Create st))) /\
  cluster (snd (Create st)) =
    snd (lastWarningsForObject conn (mkObjectMeta (VolumeName (claimSpec out)) "" [] [])
                               "PersistentVolume" 3 cl3).
Proof.
  intros Hfailed Hprimary. rewrite (Create_wait_failed _ _ _ _ Hfailed).
  unfold bind, getLastWarningsForObject, remote, ret. cbn [cluster].
  rewrite Hprimary. cbn [length Nat.eqb cluster].
  destruct (lastWarningsForObject conn _ "PersistentVolume" 3 cl3)
    as [[related|wErr] cl4]; cbn [calls cluster snd]; split; try reflexivity;
    apply in_or_app; right; left; reflexivity.
Qed.

(** The outcome of Create once its wait has failed: an error, the
    resource data of the wait, and a log that only grew by event
    lookups. *)
Lemma Create_wait_failed_outcome (st st2 : State) (out : PersistentVolumeClaim)
    (err : error) :
  WaitFailed conn pkg PollInterval st out err st2 ->
  fst (Create st) <> None /\
  data (snd (Create st)) = data st2 /\
  exists lookups,
    calls (snd (Create st)) = (calls st2 ++ lookups)%list /\
    forall c, In c lookups -> exists meta kind limit, c = CallLastWarnings meta kind limit.
Proof.
  intros Hfailed. rewrite (Create_wait_failed _ _ _ _ Hfailed).
  unfold bind, getLastWarningsForObject, remote, ret. cbn [cluster].
  destruct (lastWarningsForObject conn (claimObjectMeta out) _ _ (cluster st2))
    as [[[|ev primary]|wErr] cl3]; cbn [length Nat.eqb cluster data calls fst snd].
  - destruct (lastWarningsForObject conn _ "PersistentVolume" 3 cl3)
      as [[related|wErr] cl4]; cbn [data calls fst snd];
      (split; [discriminate|split; [reflexivity|]]);
      eexists [_; _]; (split; [now rewrite <- app_assoc|]);
      intros c [<-|[<-|[]]]; eauto.
  - split; [discriminate|split; [reflexivity|]].
    eexists [_]. split; [reflexivity|]. intros c [<-|[]]; eauto.
  - split; [discriminate|split; [reflexivity|]].
    eexists [_]. split; [reflexivity|]. intros c [<-|[]]; eauto.
Qed.

(** ** Create: the identity after a failed wait *)

(** C7: when the creation request of Create succeeded and the wait
    failed (unexpected phase, poll error or deadline), Create reports an
    error and the local identity is the one built from the created
    object; it is not empty, Create has issued no deletion, and a later
    Read or Delete addresses the created object by its namespace and
    name (for names without the delimiter of the identity codec). *)
Theorem create_keeps_identity (st st2 : State) (out : PersistentVolumeClaim)
    (err : error) :
  WaitFailed conn pkg PollInterval st out err st2 ->
  let st' := snd (Create st) in
  let meta := claimObjectMeta out in
  fst (Create st) <> None /\
  rdId (data st') = buildId meta /\
  rdId (data st') <> "" /\
  (forall ns name, In (CallDelete ns name) (calls st') ->
                   In (CallDelete ns name) (calls st)) /\
  (slashFree (Namespace meta) = true -> slashFree (Name meta) = true ->
   calls (snd (Read st')) = (calls st' ++ [CallGet (Namespace meta) (Name meta)])%list /\
   calls (snd (Delete st')) = (calls st' ++ [CallDelete (Namespace meta) (Name meta)])%list).
Proof.
  intros Hfailed st' meta.
  destruct (Create_wait_failed_outcome _ _ _ _ Hfailed)
    as (Herr & Hdata & lookups & Hcalls & Hlookups).
  destruct (WaitFailed_frame _ _ _ _ Hfailed) as (Hd2 & spec & k & Hc2).
  assert (Hid : rdId (data st') = buildId meta).
  { subst st'. rewrite Hdata, Hd2. reflexivity. }
  split; [exact Herr|]. split; [exact Hid|].
  split; [rewrite Hid; apply buildId_not_empty|].
  split.
  - intros ns name Hin. subst st'. rewrite Hcalls, Hc2 in Hin.
    apply in_app_or in Hin as [Hin|Hin].
    + apply in_app_or in Hin as [Hin|[Hin|[Hin|Hin]]]; try discriminate; [exact Hin|].
      apply repeat_spec in Hin. discriminate.
    + destruct (Hlookups _ Hin) as (m & kind & limit & Heq). discriminate.
  - intros Hns Hname.
    assert (Hparts : idParts (rdId (data st')) = inl (Namespace meta, Name meta))
      by (rewrite Hid; apply idParts_buildId; assumption).
    split; [apply Read_calls|apply Delete_calls]; exact Hparts.
Qed.

(** ** Create: the wait *)

(** C4: when the creation request succeeded and the wait flag is set,
    Create calls the waiter with the success set [Bound], the pending set
    [Pending] and, as deadline, the create timeout of the configuration,
    which is 5 minutes when none is configured; Create goes on with Read
    when the wait succeeds and fails when it fails.  A poll of that wait
    that reads [Bound] resolves it with success, one that reads [Pending]
    makes it poll again, and one that reads any other phase resolves it
    with the failure for that unexpected phase. *)
Theorem create_waits_for_bound (st st1 : State) (out : PersistentVolumeClaim) :
  Created conn pkg st out st1 ->
  asBool (rdGet "wait_until_bound" (data st)) = true ->
  let conf := boundConf conn pkg st out in
  let deadline := match rdTimeoutCreate (data st) with
                  | Some t => t
                  | None => 300 * Second
                  end in
  (exists rest, calls (snd (Create st)) =
                (calls st1 ++ CallWaitForState ["Bound"] ["Pending"] deadline :: rest)%list) /\
  (forall w st2,
      WaitForState conn PollInterval conf st1 = (w, st2) ->
      match w with
      | inl _ => Create st = Read st2
      | inr _ => fst (Create st) <> None
      end) /\
  (forall polls last s obs phase s',
      Refresh conf s = ((obs, phase, None), s') ->
      waitLoop conn (S polls) conf last s =
      if String.eqb phase "Bound" then (inl obs, s')
      else if String.eqb phase "Pending" then waitLoop conn polls conf phase s'
      else (inr (UnexpectedStateError phase), s')).
Proof.
  intros Hcreated Hflag conf deadline.
  assert (Hdeadline : createDeadline (data st) = deadline).
  { unfold createDeadline, deadline. destruct (rdTimeoutCreate (data st)); reflexivity. }
  split; [|split].
  - destruct (WaitForState_frame (Namespace (createMetadata conn pkg st))
                (Name (claimObjectMeta out)) ["Bound"] ["Pending"]
                (createDeadline (data st)) st1) as [_ [k Hk]].
    change (mkStateChangeConf ["Bound"] ["Pending"] (createDeadline (data st))
              (refreshClaim conn (Namespace (createMetadata conn pkg st))
                            (Name (claimObjectMeta out))))
      with conf in Hk.
    destruct (WaitForState conn PollInterval conf st1) as [w st2] eqn:Hwait.
    cbn [snd] in Hk. rewrite Hdeadline in Hk.
    destruct w as [obs|err].
    + rewrite (Create_created st st1 out Hcreated), Hflag.
      unfold bind at 1. fold conf. rewrite Hwait.
      destruct (Read_calls_extend st2) as (rest & Hrest & _).
      rewrite Hrest, Hk. eexists. rewrite <- app_assoc. reflexivity.
    + assert (Hfailed : WaitFailed conn pkg PollInterval st out err st2)
        by (exists st1; auto).
      destruct (Create_wait_failed_outcome _ _ _ _ Hfailed)
        as (_ & _ & lookups & Hcalls & _).
      rewrite Hcalls, Hk. eexists. rewrite <- app_assoc. reflexivity.
  - intros w st2 Hwait. destruct w as [obs|err].
    + rewrite (Create_created st st1 out Hcreated), Hflag.
      unfold bind at 1. fold conf. rewrite Hwait. reflexivity.
    + assert (Hfailed : WaitFailed conn pkg PollInterval st out err st2)
        by (exists st1; auto).
      apply (Create_wait_failed_outcome _ _ _ _ Hfailed).
  - intros polls last s obs phase s' Hpoll.
    cbn [waitLoop]. unfold bind. rewrite Hpoll.
    subst conf. cbn [boundConf Target Pending inStates existsb].
    rewrite !orb_false_r.
    destruct (String.eqb phase "Bound"); [reflexivity|].
    destruct (String.eqb phase "Pending"); reflexivity.
Qed.

(** ** Update *)

(** C8: the patch of Update holds operations at paths under [/metadata/]
    only, and it is the same for any resource data with the same metadata
    attribute, whatever its spec attribute; Update adds to the log at
    most one patch call, whose document is the encoding of that patch,
    and reads of the claim, so it never calls the waiter; after a patch
    that the cluster accepts Update goes on as Read. *)
Theorem update_patches_metadata_only (st : State) :
  let ops := patchMetadata "metadata.0." "/metadata/" (data st) in
  (forall op, In op ops -> String.prefix "/metadata/" (opPath op) = true) /\
  (forall d',
      rdState d' !! "metadata" = rdState (data st) !! "metadata" ->
      rdAttrs d' !! "metadata" = rdAttrs (data st) !! "metadata" ->
      patchMetadata "metadata.0." "/metadata/" d' = ops) /\
  (exists added,
      calls (snd (Update st)) = (calls st ++ added)%list /\
      forall c, In c added ->
        (exists ns name body,
            c = CallPatch ns name JSONPatchType body /\ MarshalJSON pkg ops = inl body) \/
        (exists ns name, c = CallGet ns name)) /\
  (forall ns name body out cl,
      idParts (rdId (data st)) = inl (ns, name) ->
      MarshalJSON pkg ops = inl body ->
      claimsPatch conn ns name JSONPatchType body (cluster st) = (inl out, cl) ->
      Update st =
      Read (mkSt (data st) cl (calls st ++ [CallPatch ns name JSONPatchType body])%list)).
Proof.
  intros ops. split; [|split; [|split]].
  - intros op. apply patchMetadata_paths.
  - intros d'. apply patchMetadata_frame.
  - unfold resourceKubernetesPersistentVolumeClaimUpdate, bind, Id, getData,
      PersistentVolumeClaims_Patch, remote, ret.
    destruct (idParts (rdId (data st))) as [[ns name]|e].
    2:{ exists []. split; [cbn [snd]; now rewrite app_nil_r|intros c []]. }
    fold ops. destruct (MarshalJSON pkg ops) as [body|e] eqn:Hbody.
    2:{ exists []. split; [cbn [snd]; now rewrite app_nil_r|intros c []]. }
    cbn [data cluster calls].
    destruct (claimsPatch conn ns name JSONPatchType body (cluster st)) as [[out|e] cl].
    + destruct (Read_calls_extend
                  (mkSt (data st) cl (calls st ++ [CallPatch ns name JSONPatchType body])%list))
        as (rest & Hrest & Hgets).
      exists (CallPatch ns name JSONPatchType body :: rest). split.
      * rewrite Hrest. cbn [calls]. rewrite <- app_assoc. reflexivity.
      * intros c [<-|Hin]; [left; eauto|right; auto].
    + exists [CallPatch ns name JSONPatchType body]. split; [reflexivity|].
      intros c [<-|[]]. left. eauto.
  - intros ns name body out cl Hid Hbody Hpatch.
    unfold resourceKubernetesPersistentVolumeClaimUpdate, bind, Id, getData,
      PersistentVolumeClaims_Patch, remote.
    rewrite Hid. fold ops. rewrite Hbody. cbn [data cluster calls].
    rewrite Hpatch. reflexivity.
Qed.

End Properties.


(** * The properties on the scripted cluster *)

Lemma lost_created :
  Created scripted plainStructures (start (freshData true) lostScript)
          (claimIn "" "") (createdState lostScript).
Proof.
  exists (mkSpec ["ReadWriteOnce"] "1Gi" "standard" ""), lostScript.
  repeat split.
Defined.

Lemma lost_wait_failed :
  WaitFailed scripted plainStructures (3 * Second) (start (freshData true) lostScript)
             (claimIn "" "") (UnexpectedStateError "Lost") (lostState lostScript).
Proof.
  exists (createdState lostScript).
  split; [exact lost_created|]. split; [reflexivity|].
  vm_compute. reflexivity.
Defined.

Lemma warned_wait_failed :
  WaitFailed scripted plainStructures (3 * Second) (start (freshData true) lostWithWarning)
             (claimIn "" "") (UnexpectedStateError "Lost") (lostState lostWithWarning).
Proof.
  exists (createdState lostWithWarning).
  split.
  - exists (mkSpec ["ReadWriteOnce"] "1Gi" "standard" ""), lostWithWarning.
    repeat split.
  - split; [reflexivity|]. vm_compute. reflexivity.
Defined.

Lemma pending_wait_expired :
  WaitFailed scripted plainStructures (3 * Second) (start (freshData true) pendingScript)
             (claimIn "" "") (TimeoutError "Pending" (5 * Minute)) expiredState.
Proof.
  exists (createdState pendingScript).
  split.
  - exists (mkSpec ["ReadWriteOnce"] "1Gi" "standard" ""), pendingScript.
    repeat split.
  - split; [reflexivity|]. vm_compute. reflexivity.
Defined.

(** The existence probe of a claim that is gone answers [(false, nil)]. *)
Lemma exists_semantics_witness :
  idParts (rdId knownData) = inl ("default", "data") /\
  claimsGet scripted "default" "data" goneScript = (inr notFound, goneScript) /\
  fst (resourceKubernetesPersistentVolumeClaimExists scripted (start knownData goneScript))
    = (false, None).
Proof.
  split; [reflexivity|]. split; [reflexivity|].
  exact (exists_semantics scripted (start knownData goneScript) "default" "data"
           (inr notFound) goneScript eq_refl eq_refl).
Defined.

(** The existence probe against a cluster that answers 403 returns that
    error with [true]. *)
Lemma exists_true_on_other_errors_witness :
  idParts (rdId knownData) = inl ("default", "data") /\
  claimsGet scripted "default" "data" forbiddenScript = (inr forbidden, forbiddenScript) /\
  isNotFound forbidden = false /\
  fst (resourceKubernetesPersistentVolumeClaimExists scripted (start knownData forbiddenScript))
    = (true, Some forbidden).
Proof.
  split; [reflexivity|]. split; [reflexivity|]. split; [reflexivity|].
  exact (exists_true_on_other_errors scripted (start knownData forbiddenScript)
           "default" "data" forbidden forbiddenScript eq_refl eq_refl eq_refl).
Defined.

(** C1 as the spec states it fails: the remote Delete of [default/data]
    reports a 404 status, and Delete returns that error and keeps the
    local identity. *)
Lemma delete_not_found_counterexample :
  idParts (rdId knownData) = inl ("default", "data") /\
  claimsDelete scripted "default" "data" goneScript = (Some notFound, goneScript) /\
  isNotFound notFound = true /\
  fst (resourceKubernetesPersistentVolumeClaimDelete scripted (start knownData goneScript))
    = Some notFound /\
  rdId (data (snd (resourceKubernetesPersistentVolumeClaimDelete scripted
                     (start knownData goneScript))))
    = "default/data".
Proof.
  repeat split.
Qed.

Lemma delete_propagates_remote_result_witness :
  idParts (rdId knownData) = inl ("default", "data") /\
  claimsDelete scripted "default" "data" boundScript = (None, boundScript) /\
  fst (resourceKubernetesPersistentVolumeClaimDelete scripted (start knownData boundScript))
    = None /\
  rdId (data (snd (resourceKubernetesPersistentVolumeClaimDelete scripted
                     (start knownData boundScript))))
    = "".
Proof.
  split; [reflexivity|]. split; [reflexivity|].
  pose proof (delete_propagates_remote_result scripted (start knownData boundScript)
                "default" "data" None boundScript eq_refl eq_refl) as (Hres & _ & Hid).
  split; [exact Hres|exact Hid].
Defined.

(** C2 as the spec states it fails: the created claim carries no volume
    name, the lookup of its warning events is empty, and Create still
    looks up the events of the volume with the empty name. *)
Lemma related_lookup_counterexample :
  VolumeName (claimSpec (claimIn "" "")) = "" /\
  WaitFailed scripted plainStructures (3 * Second) (start (freshData true) lostScript)
             (claimIn "" "") (UnexpectedStateError "Lost") (lostState lostScript) /\
  lastWarningsForObject scripted (claimObjectMeta (claimIn "" "")) "PersistentVolumeClaim" 3
                        (cluster (lostState lostScript))
    = (inl [], cluster (lostState lostScript)) /\
  In (CallLastWarnings (mkObjectMeta "" "" [] []) "PersistentVolume" 3)
     (calls (snd (resourceKubernetesPersistentVolumeClaimCreate scripted plainStructures
                    (3 * Second) (start (freshData true) lostScript)))).
Proof.
  split; [reflexivity|]. split; [exact lost_wait_failed|]. split; [reflexivity|].
  vm_compute. do 5 right. left. reflexivity.
Qed.

Lemma related_lookup_always_made_witness :
  In (relatedLookup (claimIn "" ""))
     (calls (snd (resourceKubernetesPersistentVolumeClaimCreate scripted plainStructures
                    (3 * Second) (start (freshData true) lostScript)))).
Proof.
  exact (proj1 (related_lookup_always_made scripted plainStructures (3 * Second)
                  (start (freshData true) lostScript) (lostState lostScript)
                  (claimIn "" "") (UnexpectedStateError "Lost")
                  (cluster (lostState lostScript)) lost_wait_failed eq_refl)).
Defined.

(** A claim that is lost with a warning event of its own: Create reports
    the unexpected phase followed by the rendering of that event. *)
Lemma create_failure_report_witness :
  fst (resourceKubernetesPersistentVolumeClaimCreate scripted plainStructures
         (3 * Second) (start (freshData true) lostWithWarning))
  = Some (Errorf ("unexpected state 'Lost'"
                  ++ "; data: ProvisioningFailed: storageclass standard not found")).
Proof.
  exact (create_failure_report scripted plainStructures (3 * Second)
           (start (freshData true) lostWithWarning) (lostState lostWithWarning)
           (claimIn "" "") (UnexpectedStateError "Lost") warned_wait_failed).
Defined.

(** The same claim: the lookup of its own events is not empty, so the
    events of the volume are not looked up. *)
Lemma diagnostics_fallback_witness :
  calls (snd (resourceKubernetesPersistentVolumeClaimCreate scripted plainStructures
                (3 * Second) (start (freshData true) lostWithWarning)))
  = (calls (lostState lostWithWarning) ++ [primaryLookup (claimIn "" "")])%list.
Proof.
  exact (diagnostics_fallback scripted plainStructures (3 * Second)
           (start (freshData true) lostWithWarning) (lostState lostWithWarning)
           (claimIn "" "") (UnexpectedStateError "Lost") warned_wait_failed).
Defined.

(** A claim that stays pending until the deadline: Create fails, the
    identity [default/data] stays recorded, and a later Delete addresses
    that claim. *)
Lemma create_keeps_identity_witness :
  rdId (data (snd (resourceKubernetesPersistentVolumeClaimCreate scripted plainStructures
                     (3 * Second) (start (freshData true) pendingScript))))
  = "default/data" /\
  calls (snd (resourceKubernetesPersistentVolumeClaimDelete scripted
                (snd (resourceKubernetesPersistentVolumeClaimCreate scripted plainStructures
                        (3 * Second) (start (freshData true) pendingScript)))))
  = (calls (snd (resourceKubernetesPersistentVolumeClaimCreate scripted plainStructures
                   (3 * Second) (start (freshData true) pendingScript)))
     ++ [CallDelete "default" "data"])%list.
Proof.
  pose proof (create_keeps_identity scripted plainStructures (3 * Second)
                (start (freshData true) pendingScript) expiredState
                (claimIn "" "") (TimeoutError "Pending" (5 * Minute))
                pending_wait_expired) as (_ & Hid & _ & _ & Htarget).
  split; [exact Hid|].
  exact (proj2 (Htarget eq_refl eq_refl)).
Defined.

(** The wait of a fresh configuration without a timeout of its own is
    called with the deadline of 5 minutes. *)
Lemma create_waits_for_bound_witness :
  exists rest,
    calls (snd (resourceKubernetesPersistentVolumeClaimCreate scripted plainStructures
                  (3 * Second) (start (freshData true) lostScript)))
    = (calls (createdState lostScript)
       ++ CallWaitForState ["Bound"] ["Pending"] (300 * Second) :: rest)%list.
Proof.
  exact (proj1 (create_waits_for_bound scripted plainStructures (3 * Second)
                  (start (freshData true) lostScript) (createdState lostScript)
                  (claimIn "" "") lost_created eq_refl)).
Defined.

(** An update of [default/data] whose patch the cluster accepts goes on
    as Read. *)
Lemma update_patches_metadata_only_witness :
  resourceKubernetesPersistentVolumeClaimUpdate scripted plainStructures
    (start knownData boundScript)
  = resourceKubernetesPersistentVolumeClaimRead scripted plainStructures
      (@mkSt scripted knownData boundScript
         [CallPatch "default" "data" JSONPatchType
            "/metadata/labels/tier,/metadata/labels/app,/metadata/labels/env"]).
Proof.
  exact (proj2 (proj2 (proj2 (update_patches_metadata_only scripted plainStructures
                                (start knownData boundScript))))
           "default" "data" _ (claimIn "Bound" "pv-1") boundScript
           eq_refl eq_refl eq_refl).
Defined.


(** * Further properties of the operations *)

(** ** The resource data under [d.Set] *)

Lemma rdSet_frame (key : string) (v : Value) (d : ResourceData) :
  rdId (snd (rdSet key v d)) = rdId d /\
  rdState (snd (rdSet key v d)) = rdState d /\
  rdTimeoutCreate (snd (rdSet key v d)) = rdTimeoutCreate d /\
  forall k, k <> key -> rdAttrs (snd (rdSet key v d)) !! k = rdAttrs d !! k.
Proof.
  unfold rdSet. destruct (Schema !! key) as [t|]; [|repeat split].
  destruct (ValueType_eqb (typeOf v) t); [|repeat split].
  cbn [snd rdId rdState rdTimeoutCreate rdAttrs]. repeat split.
  intros k Hk. apply lookup_insert_ne. congruence.
Qed.

Lemma rdSet_list (key : string) (v : Value) (d : ResourceData) :
  Schema !! key = Some TypeList -> typeOf v = TypeList ->
  rdSet key v d =
  (None, mkResourceData (rdId d) (rdState d) (<[key := v]> (rdAttrs d)) (rdTimeoutCreate d)).
Proof.
  intros Hkey Hv. unfold rdSet. rewrite Hkey, Hv. reflexivity.
Qed.

Lemma Schema_metadata : Schema !! "metadata" = Some TypeList.
Proof. vm_compute. reflexivity. Qed.

Lemma Schema_spec : Schema !! "spec" = Some TypeList.
Proof. vm_compute. reflexivity. Qed.

Section Operations.

Context (conn : Client) (pkg : Structures) (PollInterval : Z).

Abbreviation State := (St conn).
Abbreviation Create := (resourceKubernetesPersistentVolumeClaimCreate conn pkg PollInterval).
Abbreviation Read := (resourceKubernetesPersistentVolumeClaimRead conn pkg).
Abbreviation Update := (resourceKubernetesPersistentVolumeClaimUpdate conn pkg).
Abbreviation Delete := (resourceKubernetesPersistentVolumeClaimDelete conn).
Abbreviation Exists := (resourceKubernetesPersistentVolumeClaimExists conn).

(** ** Read *)

(** What Read leaves alone, on every path. *)
Lemma Read_preserves (s : State) :
  rdId (data (snd (Read s))) = rdId (data s) /\
  rdState (data (snd (Read s))) = rdState (data s) /\
  rdTimeoutCreate (data (snd (Read s))) = rdTimeoutCreate (data s) /\
  forall k, k <> "metadata" -> k <> "spec" ->
            rdAttrs (data (snd (Read s))) !! k = rdAttrs (data s) !! k.
Proof.
  unfold resourceKubernetesPersistentVolumeClaimRead, bind, Id,
    PersistentVolumeClaims_Get, remote, getData, Set_, ret.
  destruct (idParts (rdId (data s))) as [[ns name]|e]; [|repeat split].
  cbn [data cluster calls].
  destruct (claimsGet conn ns name (cluster s)) as [[claim|e] cl]; [|repeat split].
  cbn [data cluster calls].
  pose proof (rdSet_frame "metadata" (flattenMetadata pkg (claimObjectMeta claim) (data s))
                (data s)) as (Hi1 & Hs1 & Ht1 & Ha1).
  destruct (rdSet "metadata" _ (data s)) as [[e|] d1]; cbn [snd] in *.
  { cbn [data snd]. repeat split; auto. }
  cbn [data cluster calls].
  pose proof (rdSet_frame "spec" (flattenPersistentVolumeClaimSpec pkg (claimSpec claim)) d1)
    as (Hi2 & Hs2 & Ht2 & Ha2).
  destruct (rdSet "spec" _ d1) as [[e|] d2]; cbn [snd data] in *;
    (split; [congruence|split; [congruence|split; [congruence|]]]);
    intros k Hm Hsp; rewrite (Ha2 k Hsp); apply Ha1; exact Hm.
Qed.

(** X8: when the identity decodes and the remote Get fails, Read returns
    the error of the Get as it is, a not-found status like any other, has
    made that one call and leaves the resource data as it was. *)
Theorem read_get_failure (st : State) (ns name : string) (e : error) (cl : Cluster conn) :
  idParts (rdId (data st)) = inl (ns, name) ->
  claimsGet conn ns name (cluster st) = (inr e, cl) ->
  Read st = (Some e, mkSt (data st) cl (calls st ++ [CallGet ns name])%list).
Proof.
  intros Hid Hget.
  unfold resourceKubernetesPersistentVolumeClaimRead, bind, Id,
    PersistentVolumeClaims_Get, remote, ret.
  rewrite Hid. cbn [data cluster calls]. rewrite Hget. reflexivity.
Qed.

(** X9: when the identity decodes, the remote Get answers with a claim
    and the flattened metadata and spec are lists, Read succeeds and the
    attributes [metadata] and [spec] hold the flattened metadata and spec
    of that claim; the metadata is flattened against the resource data
    as it was before the call. *)
Theorem read_success (st : State) (ns name : string)
    (claim : PersistentVolumeClaim) (cl : Cluster conn) :
  let fm := flattenMetadata pkg (claimObjectMeta claim) (data st) in
  let fs := flattenPersistentVolumeClaimSpec pkg (claimSpec claim) in
  idParts (rdId (data st)) = inl (ns, name) ->
  claimsGet conn ns name (cluster st) = (inl claim, cl) ->
  typeOf fm = TypeList ->
  typeOf fs = TypeList ->
  fst (Read st) = None /\
  rdGet "metadata" (data (snd (Read st))) = fm /\
  rdGet "spec" (data (snd (Read st))) = fs /\
  cluster (snd (Read st)) = cl.
Proof.
  intros fm fs Hid Hget Hfm Hfs.
  unfold resourceKubernetesPersistentVolumeClaimRead, bind, Id,
    PersistentVolumeClaims_Get, remote, getData, Set_, ret.
  rewrite Hid. cbn [data cluster calls]. rewrite Hget. cbn [data cluster calls].
  fold fm. rewrite (rdSet_list "metadata" fm (data st) Schema_metadata Hfm).
  cbn [data cluster calls]. fold fs.
  rewrite (rdSet_list "spec" fs _ Schema_spec Hfs).
  cbn [fst snd data cluster]. unfold rdGet. cbn [rdAttrs].
  repeat split.
  - rewrite lookup_insert_ne by discriminate. now rewrite lookup_insert_eq.
  - now rewrite lookup_insert_eq.
Qed.

(** X10: on every path Read keeps the identity, the prior state, the
    configured timeout and the wait flag of the resource data. *)
Theorem read_keeps_identity_and_flag (st : State) :
  rdId (data (snd (Read st))) = rdId (data st) /\
  rdState (data (snd (Read st))) = rdState (data st) /\
  rdTimeoutCreate (data (snd (Read st))) = rdTimeoutCreate (data st) /\
  rdGet "wait_until_bound" (data (snd (Read st))) = rdGet "wait_until_bound" (data st).
Proof.
  destruct (Read_preserves st) as (Hi & Hs & Ht & Ha).
  repeat split; try assumption.
  unfold rdGet. rewrite Ha by discriminate. reflexivity.
Qed.

(** ** A malformed identity *)

(** X7: when the identity does not decode, Read, Update, Delete and
    Exists return the decoding error (Exists with [false]), call nothing
    and leave the state as it was. *)
Theorem malformed_identity_stops (st : State) (e : error) :
  idParts (rdId (data st)) = inr e ->
  Read st = (Some e, st) /\
  Update st = (Some e, st) /\
  Delete st = (Some e, st) /\
  Exists st = ((false, Some e), st).
Proof.
  intros Hid.
  unfold resourceKubernetesPersistentVolumeClaimRead,
    resourceKubernetesPersistentVolumeClaimUpdate,
    resourceKubernetesPersistentVolumeClaimDelete,
    resourceKubernetesPersistentVolumeClaimExists, bind, Id, ret.
  rewrite Hid. repeat split.
Qed.

(** ** Create *)

(** X1: when the spec of the configuration does not expand, Create
    returns the error of the expansion, sends nothing to the cluster and
    records no identity. *)
Theorem create_expand_failure (st : State) (e : error) :
  expandPersistentVolumeClaimSpec pkg (asList (rdGet "spec" (data st))) = inr e ->
  Create st = (Some e, st).
Proof.
  intros Hspec.
  unfold resourceKubernetesPersistentVolumeClaimCreate, bind, Get.
  rewrite Hspec. reflexivity.
Qed.

(** X2: when the cluster refuses the creation request, Create returns
    the error of the request as it is; the request is the only call, no
    identity is recorded, and neither the wait nor Read takes place. *)
Theorem create_remote_failure (st : State) (spec : PersistentVolumeClaimSpec)
    (e : error) (cl : Cluster conn) :
  expandPersistentVolumeClaimSpec pkg (asList (rdGet "spec" (data st))) = inl spec ->
  claimsCreate conn (Namespace (createMetadata conn pkg st)) (createRequest conn pkg st spec)
               (cluster st) = (inr e, cl) ->
  Create st =
  (Some e, mkSt (data st) cl
                (calls st ++ [CallCreate (Namespace (createMetadata conn pkg st))
                                         (createRequest conn pkg st spec)])%list).
Proof.
  intros Hspec Hcreate.
  unfold createRequest, createMetadata in *.
  unfold resourceKubernetesPersistentVolumeClaimCreate, bind, Get,
    PersistentVolumeClaims_Create, remote.
  cbn [data cluster calls]. rewrite Hspec, Hcreate. reflexivity.
Qed.

(** X3: when the creation request succeeded and the wait flag is not
    set, Create goes on as Read at once: after the request the log holds
    reads of the claim only, no wait and no event lookup. *)
Theorem create_without_wait (st st1 : State) (out : PersistentVolumeClaim) :
  Created conn pkg st out st1 ->
  asBool (rdGet "wait_until_bound" (data st)) = false ->
  Create st = Read st1 /\
  exists rest,
    calls (snd (Create st)) = (calls st1 ++ rest)%list /\
    forall c, In c rest -> exists ns name, c = CallGet ns name.
Proof.
  intros Hcreated Hflag.
  rewrite (Create_created conn pkg PollInterval st st1 out Hcreated), Hflag.
  split; [reflexivity|]. apply Read_calls_extend.
Qed.

(** The resource data and the log of Create from the state in which the
    creation request has been answered. *)
Lemma Create_created_outcome (st st1 : State) (out : PersistentVolumeClaim) :
  Created conn pkg st out st1 ->
  rdId (data (snd (Create st))) = rdId (data st1) /\
  exists rest,
    calls (snd (Create st)) = (calls st1 ++ rest)%list /\
    forall c, In c rest ->
      match c with
      | CallGet _ _ | CallWaitForState _ _ _ | CallLastWarnings _ _ _ => True
      | _ => False
      end.
Proof.
  intros Hcreated.
  destruct (asBool (rdGet "wait_until_bound" (data st))) eqn:Hflag.
  - destruct (WaitForState_frame conn PollInterval
                (Namespace (createMetadata conn pkg st)) (Name (claimObjectMeta out))
                ["Bound"] ["Pending"] (createDeadline (data st)) st1) as [Hd [k Hk]].
    change (mkStateChangeConf ["Bound"] ["Pending"] (createDeadline (data st))
              (refreshClaim conn (Namespace (createMetadata conn pkg st))
                            (Name (claimObjectMeta out))))
      with (boundConf conn pkg st out) in Hd, Hk.
    destruct (WaitForState conn PollInterval (boundConf conn pkg st out) st1)
      as [[obs|err] st2] eqn:Hwait; cbn [snd] in Hd, Hk.
    + assert (Hgo : Create st = Read st2).
      { rewrite (Create_created conn pkg PollInterval st st1 out Hcreated), Hflag.
        unfold bind at 1. rewrite Hwait. reflexivity. }
      rewrite Hgo.
      destruct (Read_preserves st2) as (Hid & _).
      destruct (Read_calls_extend conn pkg st2) as (rest & Hrest & Hgets).
      split; [rewrite Hid, Hd; reflexivity|].
      rewrite Hrest, Hk, <- app_assoc. eexists. split; [reflexivity|].
      intros c Hin. cbn [app] in Hin. destruct Hin as [<-|Hin]; [exact I|].
      apply in_app_or in Hin as [Hin|Hin].
      * apply repeat_spec in Hin. subst c. exact I.
      * destruct (Hgets c Hin) as (ns & name & ->). exact I.
    + assert (Hfailed : WaitFailed conn pkg PollInterval st out err st2)
        by (exists st1; auto).
      destruct (Create_wait_failed_outcome conn pkg PollInterval _ _ _ _ Hfailed)
        as (_ & Hdata & lookups & Hcalls & Hlookups).
      split; [rewrite Hdata, Hd; reflexivity|].
      rewrite Hcalls, Hk, <- app_assoc. eexists. split; [reflexivity|].
      intros c Hin. cbn [app] in Hin. destruct Hin as [<-|Hin]; [exact I|].
      apply in_app_or in Hin as [Hin|Hin].
      * apply repeat_spec in Hin. subst c. exact I.
      * destruct (Hlookups c Hin) as (m & kind & limit & ->). exact I.
  - rewrite (Create_created conn pkg PollInterval st st1 out Hcreated), Hflag.
    destruct (Read_preserves st1) as (Hid & _).
    destruct (Read_calls_extend conn pkg st1) as (rest & Hrest & Hgets).
    split; [exact Hid|]. exists rest. split; [exact Hrest|].
    intros c Hin. destruct (Hgets c Hin) as (ns & name & ->). exact I.
Qed.

(** X4: once the cluster has answered the creation request with an
    object, the identity that Create leaves is the one built from that
    object, on every path: with or without the wait, whether the wait,
    the event lookups or the final Read succeed or fail. *)
Theorem create_records_identity (st st1 : State) (out : PersistentVolumeClaim) :
  Created conn pkg st out st1 ->
  rdId (data (snd (Create st))) = buildId (claimObjectMeta out).
Proof.
  intros Hcreated.
  destruct (Create_created_outcome st st1 out Hcreated) as [Hid _].
  rewrite Hid. destruct Hcreated as (spec & cl & _ & _ & ->). reflexivity.
Qed.

(** X5: whatever the state, Create only adds to the log, and what it
    adds is never a patch nor a deletion; a creation request, when there
    is one, comes first. *)
Theorem create_never_patches_or_deletes (st : State) :
  exists added,
    calls (snd (resourceKubernetesPersistentVolumeClaimCreate conn pkg PollInterval st))
      = (calls st ++ added)%list /\
    (forall c, In c added ->
       match c with
       | CallPatch _ _ _ _ | CallDelete _ _ => False
       | _ => True
       end) /\
    (forall ns claim, In (CallCreate ns claim) added ->
                      exists rest, added = CallCreate ns claim :: rest /\
                                   ~ In (CallCreate ns claim) rest).
Proof.
  destruct (expandPersistentVolumeClaimSpec pkg (asList (rdGet "spec" (data st))))
    as [spec|e] eqn:Hspec.
  2:{ exists [].
      unfold resourceKubernetesPersistentVolumeClaimCreate, bind, Get.
      rewrite Hspec. cbn [snd ret].
      split; [now rewrite app_nil_r|]. split; intros; contradiction. }
  destruct (claimsCreate conn (Namespace (createMetadata conn pkg st))
              (createRequest conn pkg st spec) (cluster st)) as [[out|e] cl] eqn:Hcreate.
  2:{ eexists [_].
      unfold createRequest, createMetadata in Hcreate.
      unfold resourceKubernetesPersistentVolumeClaimCreate, bind, Get,
        PersistentVolumeClaims_Create, remote.
      cbn [data cluster calls]. rewrite Hspec, Hcreate.
      cbn [snd calls ret]. split; [reflexivity|]. split.
      - intros c [<-|[]]. exact I.
      - intros ns claim [Heq|[]]. exists []. split; [now rewrite Heq|intros []]. }
  assert (Hcreated : Created conn pkg st out (afterCreate conn pkg st spec out cl))
    by (exists spec, cl; auto).
  destruct (Create_created_outcome st _ out Hcreated) as (_ & rest & Hcalls & Hrest).
  exists (CallCreate (Namespace (createMetadata conn pkg st))
                     (createRequest conn pkg st spec) :: rest).
  split; [|split].
  - rewrite Hcalls. unfold afterCreate. cbn [calls]. now rewrite <- app_assoc.
  - intros c [<-|Hin]; [exact I|]. specialize (Hrest c Hin). destruct c; tauto.
  - intros ns claim [Heq|Hin].
    + exists rest. split; [now rewrite Heq|]. intros Hin. exact (Hrest _ Hin).
    + destruct (Hrest _ Hin).
Qed.

(** X6: when the creation request and the wait succeed, the log of
    Create is the creation request, the call of the waiter, the polls,
    all of them for the namespace of the configuration and the name of
    the created object, and the read of Read, for the namespace and the
    name of the created object (names without the delimiter of the
    identity codec). *)
Theorem create_success_log (st st1 st2 : State) (out obs : PersistentVolumeClaim) :
  Created conn pkg st out st1 ->
  asBool (rdGet "wait_until_bound" (data st)) = true ->
  WaitForState conn PollInterval (boundConf conn pkg st out) st1 = (inl obs, st2) ->
  slashFree (Namespace (claimObjectMeta out)) = true ->
  slashFree (Name (claimObjectMeta out)) = true ->
  Create st = Read st2 /\
  exists polls,
    calls (snd (Create st)) =
    (calls st1
     ++ CallWaitForState ["Bound"] ["Pending"] (createDeadline (data st))
     :: repeat (CallGet (Namespace (createMetadata conn pkg st))
                        (Name (claimObjectMeta out))) polls
     ++ [CallGet (Namespace (claimObjectMeta out)) (Name (claimObjectMeta out))])%list.
Proof.
  intros Hcreated Hflag Hwait Hns Hname.
  assert (Hcreate : Create st = Read st2).
  { rewrite (Create_created conn pkg PollInterval st st1 out Hcreated), Hflag.
    unfold bind at 1. rewrite Hwait. reflexivity. }
  split; [exact Hcreate|].
  destruct (WaitForState_frame conn PollInterval
              (Namespace (createMetadata conn pkg st)) (Name (claimObjectMeta out))
              ["Bound"] ["Pending"] (createDeadline (data st)) st1) as [Hd [k Hk]].
  change (mkStateChangeConf ["Bound"] ["Pending"] (createDeadline (data st))
            (refreshClaim conn (Namespace (createMetadata conn pkg st))
                          (Name (claimObjectMeta out))))
    with (boundConf conn pkg st out) in Hd, Hk.
  rewrite Hwait in Hd, Hk. cbn [snd] in Hd, Hk.
  assert (Hid : idParts (rdId (data st2))
                = inl (Namespace (claimObjectMeta out), Name (claimObjectMeta out))).
  { rewrite Hd. destruct Hcreated as (spec & cl & _ & _ & ->).
    cbn [afterCreate data rdSetId rdId]. apply idParts_buildId; assumption. }
  exists k. rewrite Hcreate, (Read_calls conn pkg st2 _ _ Hid), Hk.
  rewrite <- app_assoc. reflexivity.
Qed.

(** ** Update *)

(** X11: when the patch cannot be encoded, Update returns an error whose
    text is [Failed to marshal update operations: ] followed by the text
    of the encoding error, and the cluster is not called. *)
Theorem update_marshal_failure (st : State) (ns name : string) (e : error) :
  idParts (rdId (data st)) = inl (ns, name) ->
  MarshalJSON pkg (patchMetadata "metadata.0." "/metadata/" (data st)) = inr e ->
  Update st = (Some (Errorf ("Failed to marshal update operations: " ++ Error e)), st).
Proof.
  intros Hid Hbody.
  unfold resourceKubernetesPersistentVolumeClaimUpdate, bind, Id, getData.
  rewrite Hid, Hbody. reflexivity.
Qed.

(** X12: when the cluster refuses the patch, Update returns the error
    of the patch call as it is; the patch is the only call, Read does
    not take place and the resource data stays as it was. *)
Theorem update_patch_failure (st : State) (ns name body : string) (e : error)
    (cl : Cluster conn) :
  idParts (rdId (data st)) = inl (ns, name) ->
  MarshalJSON pkg (patchMetadata "metadata.0." "/metadata/" (data st)) = inl body ->
  claimsPatch conn ns name JSONPatchType body (cluster st) = (inr e, cl) ->
  Update st =
  (Some e, mkSt (data st) cl (calls st ++ [CallPatch ns name JSONPatchType body])%list).
Proof.
  intros Hid Hbody Hpatch.
  unfold resourceKubernetesPersistentVolumeClaimUpdate, bind, Id, getData,
    PersistentVolumeClaims_Patch, remote.
  rewrite Hid, Hbody. cbn [data cluster calls]. rewrite Hpatch. reflexivity.
Qed.

(** X13: on every path Update keeps the identity, the prior state, the
    configured timeout and the wait flag of the resource data. *)
Theorem update_keeps_identity_and_flag (st : State) :
  rdId (data (snd (Update st))) = rdId (data st) /\
  rdState (data (snd (Update st))) = rdState (data st) /\
  rdTimeoutCreate (data (snd (Update st))) = rdTimeoutCreate (data st) /\
  rdGet "wait_until_bound" (data (snd (Update st))) = rdGet "wait_until_bound" (data st).
Proof.
  unfold resourceKubernetesPersistentVolumeClaimUpdate, bind, Id, getData,
    PersistentVolumeClaims_Patch, remote, ret.
  destruct (idParts (rdId (data st))) as [[ns name]|e]; [|repeat split].
  destruct (MarshalJSON pkg _) as [body|e]; [|repeat split].
  cbn [data cluster calls].
  destruct (claimsPatch conn ns name JSONPatchType body (cluster st)) as [[out|e] cl];
    [|repeat split].
  destruct (Read_preserves
              (mkSt (data st) cl (calls st ++ [CallPatch ns name JSONPatchType body])%list))
    as (Hi & Hs & Ht & Ha).
  cbn [data] in Hi, Hs, Ht, Ha.
  repeat split; try assumption.
  unfold rdGet. rewrite Ha by discriminate. reflexivity.
Qed.

(** ** Delete *)

(** X14: on every path Delete leaves the attributes, the prior state and
    the configured timeout of the resource data as they were; it adds at
    most one call to the log, a deletion. *)
Theorem delete_touches_identity_only (st : State) :
  rdAttrs (data (snd (resourceKubernetesPersistentVolumeClaimDelete conn st)))
    = rdAttrs (data st) /\
  rdState (data (snd (resourceKubernetesPersistentVolumeClaimDelete conn st)))
    = rdState (data st) /\
  rdTimeoutCreate (data (snd (resourceKubernetesPersistentVolumeClaimDelete conn st)))
    = rdTimeoutCreate (data st) /\
  exists added,
    calls (snd (resourceKubernetesPersistentVolumeClaimDelete conn st))
      = (calls st ++ added)%list /\
    (length added <= 1)%nat /\
    forall c, In c added -> exists ns name, c = CallDelete ns name.
Proof.
  unfold resourceKubernetesPersistentVolumeClaimDelete, bind, Id,
    PersistentVolumeClaims_Delete, remote, SetId, ret.
  destruct (idParts (rdId (data st))) as [[ns name]|e].
  2:{ repeat split. exists []. cbn [snd]. rewrite app_nil_r.
      repeat split; [simpl; lia|intros c []]. }
  cbn [data cluster calls].
  destruct (claimsDelete conn ns name (cluster st)) as [[e|] cl];
    cbn [snd data calls rdSetId rdAttrs rdState rdTimeoutCreate];
    (repeat split; exists [CallDelete ns name];
     repeat split; [simpl; lia|intros c [<-|[]]; eauto]).
Qed.

(** X15: after a Delete that the cluster accepted the identity is empty
    and does not decode: a second Delete, a Read and an existence probe
    all stop on the decoding error without calling the cluster. *)
Theorem delete_then_nothing_addressable (st : State) (ns name : string)
    (cl : Cluster conn) :
  idParts (rdId (data st)) = inl (ns, name) ->
  claimsDelete conn ns name (cluster st) = (None, cl) ->
  let st' := snd (Delete st) in
  exists e,
    idParts "" = inr e /\
    Delete st' = (Some e, st') /\
    Read st' = (Some e, st') /\
    Exists st' = ((false, Some e), st').
Proof.
  intros Hid Hdel st'.
  assert (Hempty : rdId (data st') = "").
  { subst st'.
    unfold resourceKubernetesPersistentVolumeClaimDelete, bind, Id,
      PersistentVolumeClaims_Delete, remote, SetId, ret.
    rewrite Hid. cbn [data cluster calls]. rewrite Hdel. reflexivity. }
  eexists. split; [reflexivity|].
  unfold resourceKubernetesPersistentVolumeClaimDelete,
    resourceKubernetesPersistentVolumeClaimRead,
    resourceKubernetesPersistentVolumeClaimExists, bind, Id, ret.
  rewrite Hempty. repeat split.
Qed.

(** ** Exists *)

(** X16: the existence probe only observes: on every path the resource
    data is as before, and the log grows by at most one call, a read of
    the claim. *)
Theorem exists_only_observes (st : State) :
  data (snd (resourceKubernetesPersistentVolumeClaimExists conn st)) = data st /\
  exists added,
    calls (snd (resourceKubernetesPersistentVolumeClaimExists conn st))
      = (calls st ++ added)%list /\
    (length added <= 1)%nat /\
    forall c, In c added -> exists ns name, c = CallGet ns name.
Proof.
  unfold resourceKubernetesPersistentVolumeClaimExists, bind, Id,
    PersistentVolumeClaims_Get, remote, ret.
  destruct (idParts (rdId (data st))) as [[ns name]|e].
  2:{ split; [reflexivity|]. exists []. cbn [snd]. rewrite app_nil_r.
      repeat split; [simpl; lia|intros c []]. }
  cbn [data cluster calls].
  destruct (claimsGet conn ns name (cluster st)) as [[claim|e] cl].
  - split; [reflexivity|]. exists [CallGet ns name].
    repeat split; [simpl; lia|intros c [<-|[]]; eauto].
  - destruct (statusCode e) as [code|]; [destruct (code =? 404)|];
      (split; [reflexivity|]; exists [CallGet ns name];
       repeat split; [simpl; lia|intros c [<-|[]]; eauto]).
Qed.

(** ** Import *)

(** X17: the importer changes the wait flag and nothing else: every
    other attribute, the metadata and the spec among them, reads as
    before, and importing a second time changes nothing more. *)
Theorem import_changes_flag_only (st : State) :
  let st1 := snd (importerState conn st) in
  (forall key, key <> "wait_until_bound" ->
               rdGet key (data st1) = rdGet key (data st)) /\
  rdState (data st1) = rdState (data st) /\
  rdTimeoutCreate (data st1) = rdTimeoutCreate (data st) /\
  snd (importerState conn st1) = st1.
Proof.
  intros st1. subst st1.
  unfold importerState, bind, Set_, getData, ret, rdSet.
  replace (Schema !! "wait_until_bound") with (Some TypeBool)
    by (vm_compute; reflexivity).
  cbn [typeOf ValueType_eqb snd data cluster calls rdId rdState rdAttrs rdTimeoutCreate].
  repeat split.
  - intros key Hkey. unfold rdGet. cbn [rdAttrs].
    rewrite lookup_insert_ne by congruence. reflexivity.
  - rewrite insert_insert_eq. reflexivity.
Qed.

(** ** What a success means *)

(** X18: the existence probe answers [(false, nil)] only when the
    identity decodes and the remote Get failed with a status error of
    code 404. *)
Theorem exists_false_only_on_not_found (st : State) :
  fst (Exists st) = (false, None) ->
  exists ns name e cl,
    idParts (rdId (data st)) = inl (ns, name) /\
    claimsGet conn ns name (cluster st) = (inr e, cl) /\
    isNotFound e = true.
Proof.
  unfold resourceKubernetesPersistentVolumeClaimExists, bind, Id,
    PersistentVolumeClaims_Get, remote, ret, isNotFound.
  destruct (idParts (rdId (data st))) as [[ns name]|e0]; [|discriminate].
  cbn [data cluster calls].
  destruct (claimsGet conn ns name (cluster st)) as [[claim|e] cl] eqn:Hget;
    [discriminate|].
  destruct (statusCode e) as [code|] eqn:Hcode; [|discriminate].
  destruct (code =? 404) eqn:H404; [|discriminate].
  intros _. exists ns, name, e, cl. rewrite Hcode. auto.
Qed.

(** X19: Create returns no error only when the cluster acknowledged the
    creation request, the wait, if the wait flag is set, resolved with
    success, and the Read that follows returned no error. *)
Theorem create_success_means (st : State) :
  fst (Create st) = None ->
  exists out st1,
    Created conn pkg st out st1 /\
    if asBool (rdGet "wait_until_bound" (data st)) then
      exists obs st2,
        WaitForState conn PollInterval (boundConf conn pkg st out) st1 = (inl obs, st2) /\
        Create st = Read st2 /\ fst (Read st2) = None
    else Create st = Read st1 /\ fst (Read st1) = None.
Proof.
  intros Hnone.
  destruct (expandPersistentVolumeClaimSpec pkg (asList (rdGet "spec" (data st))))
    as [spec|e] eqn:Hspec.
  2:{ revert Hnone.
      unfold resourceKubernetesPersistentVolumeClaimCreate, bind, Get.
      rewrite Hspec. discriminate. }
  destruct (claimsCreate conn (Namespace (createMetadata conn pkg st))
              (createRequest conn pkg st spec) (cluster st)) as [[out|e] cl] eqn:Hcreate.
  2:{ revert Hnone. unfold createRequest, createMetadata in Hcreate.
      unfold resourceKubernetesPersistentVolumeClaimCreate, bind, Get,
        PersistentVolumeClaims_Create, remote.
      cbn [data cluster calls]. rewrite Hspec, Hcreate. discriminate. }
  assert (Hcreated : Created conn pkg st out (afterCreate conn pkg st spec out cl))
    by (exists spec, cl; auto).
  exists out, (afterCreate conn pkg st spec out cl). split; [exact Hcreated|].
  pose proof (Create_created conn pkg PollInterval st _ out Hcreated) as Hgo.
  destruct (asBool (rdGet "wait_until_bound" (data st))) eqn:Hflag.
  - destruct (WaitForState conn PollInterval (boundConf conn pkg st out)
                (afterCreate conn pkg st spec out cl)) as [[obs|err] st2] eqn:Hwait.
    + exists obs, st2. split; [reflexivity|].
      assert (Hread : Create st = Read st2).
      { rewrite Hgo. unfold bind at 1. rewrite Hwait. reflexivity. }
      split; [exact Hread|]. rewrite <- Hread. exact Hnone.
    + assert (Hfailed : WaitFailed conn pkg PollInterval st out err st2)
        by (eexists; eauto).
      destruct (Create_wait_failed_outcome conn pkg PollInterval _ _ _ _ Hfailed)
        as (Herr & _).
      contradiction.
  - split; [exact Hgo|]. rewrite <- Hgo. exact Hnone.
Qed.

(** X20: Update returns no error only when the identity decoded, the
    patch was encoded, the cluster accepted it and the Read that follows
    returned no error. *)
Theorem update_success_means (st : State) :
  fst (Update st) = None ->
  exists ns name body out cl,
    idParts (rdId (data st)) = inl (ns, name) /\
    MarshalJSON pkg (patchMetadata "metadata.0." "/metadata/" (data st)) = inl body /\
    claimsPatch conn ns name JSONPatchType body (cluster st) = (inl out, cl) /\
    fst (Read (mkSt (data st) cl (calls st ++ [CallPatch ns name JSONPatchType body])%list))
      = None.
Proof.
  unfold resourceKubernetesPersistentVolumeClaimUpdate, bind, Id, getData,
    PersistentVolumeClaims_Patch, remote, ret.
  destruct (idParts (rdId (data st))) as [[ns name]|e]; [|discriminate].
  destruct (MarshalJSON pkg _) as [body|e] eqn:Hbody; [|discriminate].
  cbn [data cluster calls].
  destruct (claimsPatch conn ns name JSONPatchType body (cluster st))
    as [[out|e] cl] eqn:Hpatch; [|discriminate].
  intros Hnone. exists ns, name, body, out, cl. auto.
Qed.

End Operations.


(** * The further properties on the scripted cluster *)

Lemma bound_created :
  Created scripted plainStructures (start (freshData true) boundScript)
          (claimIn "" "") (createdState boundScript).
Proof.
  exists (mkSpec ["ReadWriteOnce"] "1Gi" "standard" ""), boundScript.
  repeat split.
Defined.

Lemma unwaited_created :
  Created scripted plainStructures (start (freshData false) boundScript) (claimIn "" "")
    (afterCreate scripted plainStructures (start (freshData false) boundScript)
       (mkSpec ["ReadWriteOnce"] "1Gi" "standard" "") (claimIn "" "") boundScript).
Proof.
  exists (mkSpec ["ReadWriteOnce"] "1Gi" "standard" ""), boundScript.
  repeat split.
Defined.

Lemma create_expand_failure_witness :
  resourceKubernetesPersistentVolumeClaimCreate scripted brokenStructures (3 * Second)
    (start (freshData true) boundScript)
  = (Some (Errorf "spec: storage request is missing"), start (freshData true) boundScript).
Proof.
  exact (create_expand_failure scripted brokenStructures (3 * Second)
           (start (freshData true) boundScript) _ eq_refl).
Defined.

Lemma create_remote_failure_witness :
  fst (resourceKubernetesPersistentVolumeClaimCreate scripted plainStructures (3 * Second)
         (start (freshData true) forbiddenScript)) = Some forbidden /\
  rdId (data (snd (resourceKubernetesPersistentVolumeClaimCreate scripted plainStructures
                     (3 * Second) (start (freshData true) forbiddenScript)))) = "".
Proof.
  rewrite (create_remote_failure scripted plainStructures (3 * Second)
             (start (freshData true) forbiddenScript)
             (mkSpec ["ReadWriteOnce"] "1Gi" "standard" "") forbidden forbiddenScript
             eq_refl eq_refl).
  split; reflexivity.
Defined.

Lemma create_without_wait_witness :
  resourceKubernetesPersistentVolumeClaimCreate scripted plainStructures (3 * Second)
    (start (freshData false) boundScript)
  = resourceKubernetesPersistentVolumeClaimRead scripted plainStructures
      (afterCreate scripted plainStructures (start (freshData false) boundScript)
         (mkSpec ["ReadWriteOnce"] "1Gi" "standard" "") (claimIn "" "") boundScript).
Proof.
  exact (proj1 (create_without_wait scripted plainStructures (3 * Second)
                  (start (freshData false) boundScript) _ (claimIn "" "")
                  unwaited_created eq_refl)).
Defined.

Lemma create_records_identity_witness :
  rdId (data (snd (resourceKubernetesPersistentVolumeClaimCreate scripted plainStructures
                     (3 * Second) (start (freshData true) boundScript))))
  = "default/data".
Proof.
  exact (create_records_identity scripted plainStructures (3 * Second)
           (start (freshData true) boundScript) (createdState boundScript)
           (claimIn "" "") bound_created).
Defined.

Lemma bound_wait_succeeded :
  WaitForState scripted (3 * Second)
    (boundConf scripted plainStructures (start (freshData true) boundScript) (claimIn "" ""))
    (createdState boundScript)
  = (inl (claimIn "Bound" "pv-1"), boundState).
Proof. vm_compute. reflexivity. Defined.

Lemma create_success_log_witness :
  exists polls,
    calls (snd (resourceKubernetesPersistentVolumeClaimCreate scripted plainStructures
                  (3 * Second) (start (freshData true) boundScript)))
    = (calls (createdState boundScript)
       ++ CallWaitForState ["Bound"] ["Pending"] (5 * Minute)
       :: repeat (CallGet "default" "data") polls
       ++ [CallGet "default" "data"])%list.
Proof.
  exact (proj2 (create_success_log scripted plainStructures (3 * Second)
                  (start (freshData true) boundScript) (createdState boundScript)
                  boundState (claimIn "" "") (claimIn "Bound" "pv-1")
                  bound_created eq_refl bound_wait_succeeded eq_refl eq_refl)).
Defined.

Lemma malformed_identity_stops_witness :
  exists e,
    idParts (rdId malformedData) = inr e /\
    resourceKubernetesPersistentVolumeClaimDelete scripted (start malformedData boundScript)
    = (Some e, start malformedData boundScript).
Proof.
  eexists. split; [reflexivity|].
  exact (proj1 (proj2 (proj2 (malformed_identity_stops scripted plainStructures
                                (start malformedData boundScript) _ eq_refl)))).
Defined.

Lemma read_get_failure_witness :
  resourceKubernetesPersistentVolumeClaimRead scripted plainStructures
    (start knownData goneScript)
  = (Some notFound, @mkSt scripted knownData goneScript [CallGet "default" "data"]).
Proof.
  exact (read_get_failure scripted plainStructures (start knownData goneScript)
           "default" "data" notFound goneScript eq_refl eq_refl).
Defined.

Lemma read_success_witness :
  fst (resourceKubernetesPersistentVolumeClaimRead scripted plainStructures
         (start knownData pendingScript)) = None /\
  rdGet "spec" (data (snd (resourceKubernetesPersistentVolumeClaimRead scripted
                             plainStructures (start knownData pendingScript))))
  = VList [VMap [("storage", VString "1Gi");
                 ("storage_class_name", VString "standard");
                 ("volume_name", VString "")]].
Proof.
  pose proof (read_success scripted plainStructures (start knownData pendingScript)
                "default" "data" (claimIn "Pending" "") pendingScript
                eq_refl eq_refl eq_refl eq_refl) as (Hres & _ & Hspec & _).
  split; [exact Hres|exact Hspec].
Defined.

Lemma update_marshal_failure_witness :
  resourceKubernetesPersistentVolumeClaimUpdate scripted brokenStructures
    (start knownData boundScript)
  = (Some (Errorf "Failed to marshal update operations: json: unsupported value"),
     start knownData boundScript).
Proof.
  exact (update_marshal_failure scripted brokenStructures (start knownData boundScript)
           "default" "data" (OtherError "json: unsupported value") eq_refl eq_refl).
Defined.

Lemma update_patch_failure_witness :
  resourceKubernetesPersistentVolumeClaimUpdate scripted plainStructures
    (start knownData forbiddenScript)
  = (Some forbidden,
     @mkSt scripted knownData forbiddenScript
       [CallPatch "default" "data" JSONPatchType
          "/metadata/labels/tier,/metadata/labels/app,/metadata/labels/env"]).
Proof.
  exact (update_patch_failure scripted plainStructures (start knownData forbiddenScript)
           "default" "data" _ forbidden forbiddenScript eq_refl eq_refl eq_refl).
Defined.

Lemma delete_then_nothing_addressable_witness :
  exists e,
    resourceKubernetesPersistentVolumeClaimDelete scripted
      (snd (resourceKubernetesPersistentVolumeClaimDelete scripted
              (start knownData boundScript)))
    = (Some e, snd (resourceKubernetesPersistentVolumeClaimDelete scripted
                      (start knownData boundScript))).
Proof.
  destruct (delete_then_nothing_addressable scripted plainStructures
              (start knownData boundScript) "default" "data" boundScript
              eq_refl eq_refl) as (e & _ & Hdel & _).
  exists e. exact Hdel.
Defined.

Lemma import_changes_flag_only_witness :
  rdGet "metadata" (data (snd (importerState scripted (start knownData boundScript))))
  = rdGet "metadata" knownData.
Proof.
  refine (proj1 (import_changes_flag_only scripted (start knownData boundScript))
                "metadata" _).
  discriminate.
Defined.

Lemma exists_false_only_on_not_found_witness :
  exists ns name e cl,
    idParts (rdId knownData) = inl (ns, name) /\
    claimsGet scripted ns name goneScript = (inr e, cl) /\
    isNotFound e = true.
Proof.
  exact (exists_false_only_on_not_found scripted (start knownData goneScript) eq_refl).
Defined.

Lemma create_success_means_witness :
  exists out st1,
    Created scripted plainStructures (start (freshData true) boundScript) out st1.
Proof.
  assert (Hnone : fst (resourceKubernetesPersistentVolumeClaimCreate scripted plainStructures
                         (3 * Second) (start (freshData true) boundScript)) = None)
    by (vm_compute; reflexivity).
  destruct (create_success_means scripted plainStructures (3 * Second)
              (start (freshData true) boundScript) Hnone) as (out & st1 & Hcreated & _).
  exists out, st1. exact Hcreated.
Defined.

Lemma update_success_means_witness :
  exists body,
    MarshalJSON plainStructures (patchMetadata "metadata.0." "/metadata/" knownData)
    = inl body.
Proof.
  assert (Hnone : fst (resourceKubernetesPersistentVolumeClaimUpdate scripted plainStructures
                         (start knownData boundScript)) = None)
    by (vm_compute; reflexivity).
  destruct (update_success_means scripted plainStructures (start knownData boundScript) Hnone)
    as (ns & name & body & out & cl & _ & Hbody & _).
  exists body. exact Hbody.
Defined.
